(** * Stock market dashboard (app1.py): model and verified properties

  A shallow embedding of the non-UI logic of [app1.py]:
  - [MarketClock.is_market_open], the trading-session classifier;
  - [QuoteFetcher.get_premarket_price] and [QuoteFetcher.get_market_price],
    the two quote fetchers, over an arbitrary market-data provider;
  - [Tickers.build], the ticker-list construction of [main];
  - [Formatter], the four display lambdas of [main];
  - [Table], the DataFrame that [main] builds from the results and the
    formatting of its columns;
  - [Dashboard.fetch_all], the fetch loop of [main].

  Python floats (and numpy's float64) are IEEE 754 binary64 numbers; they
  are modelled by [spec_float] with the operations of [SpecFloat] at
  precision 53 and maximal exponent 1024.  A [str] that the user types is
  the sequence of its Unicode code points; the case mapping and the white
  space of [str.upper()] and [str.strip()] are tables of the Python
  runtime, taken as a parameter ([Tickers.chardb]).  The strings that the
  formatters print are ASCII.  The table follows pandas' construction
  from a list of records: columns in the order of first appearance, NaN
  for a missing value in a column of numbers. *)

From Stdlib Require Import ZArith NArith List String Ascii Bool Lia.
From Stdlib Require Import SpecFloat DecimalString Zpower.
Import ListNotations.

Local Open Scope string_scope.
Local Open Scope Z_scope.

Set Warnings "-register-all".

(** ** Python values, exceptions and arithmetic *)

Module Py.

(** Binary64 arithmetic. *)
Definition float := spec_float.

Definition prec : Z := 53.
Definition emax : Z := 1024.

Definition fadd : float -> float -> float := SFadd prec emax.
Definition fsub : float -> float -> float := SFsub prec emax.
Definition fmul : float -> float -> float := SFmul prec emax.
Definition fdiv : float -> float -> float := SFdiv prec emax.

(** [x < y], [x <= y] and [x == y] on floats; all false on NaN. *)
Definition flt : float -> float -> bool := SFltb.
Definition fle : float -> float -> bool := SFleb.
Definition feq : float -> float -> bool := SFeqb.

(** The double nearest to an integer (ties to even); an infinity when the
    integer is out of range. *)
Definition Z2F (n : Z) : float := binary_normalize prec emax n 0 false.

(** The double denoted by the decimal literal [digits / 10^scale], as in
    [9.5 = dec 95 1].  Both operands are exact for the literals used
    here, so the correctly rounded quotient is the literal's value. *)
Definition dec (digits : Z) (scale : nat) : float :=
  fdiv (Z2F digits) (Z2F (10 ^ Z.of_nat scale)).

Definition is_zero (x : float) : bool :=
  match x with S754_zero _ => true | _ => false end.

Definition is_finite (x : float) : bool :=
  match x with S754_zero _ | S754_finite _ _ _ => true | _ => false end.

Definition is_nan (x : float) : bool :=
  match x with S754_nan => true | _ => false end.

(** Exceptions (all of them subclasses of [Exception]). *)
Inductive exn : Type :=
| TypeError
| ZeroDivisionError
| OverflowError
| AttributeError
| KeyError
| IndexError
| OtherError (msg : string).

Inductive result (A : Type) : Type :=
| Ok (a : A)
| Raise (e : exn).
Arguments Ok {A} a.
Arguments Raise {A} e.

Definition rbind {A B} (r : result A) (k : A -> result B) : result B :=
  match r with
  | Ok a => k a
  | Raise e => Raise e
  end.

(** Values: [None], [int], [float] (numpy's float64 is a subclass),
    [str] and [dict] with insertion-ordered string keys. *)
Inductive pyval : Type :=
| PyNone
| PyInt (n : Z)
| PyFloat (x : float)
| PyStr (s : string)
| PyDict (d : list (string * pyval)).

Definition dict := list (string * pyval).

(** [isinstance(v, (int, float))] *)
Definition is_number (v : pyval) : bool :=
  match v with
  | PyInt _ | PyFloat _ => true
  | _ => false
  end.

(** [bool(v)] *)
Definition truthy (v : pyval) : bool :=
  match v with
  | PyNone => false
  | PyInt n => negb (n =? 0)
  | PyFloat x => negb (is_zero x)
  | PyStr s => negb (String.eqb s "")
  | PyDict d => match d with [] => false | _ => true end
  end.

(** [float(n)] for an [int]: [OverflowError] when out of range. *)
Definition float_of_int (n : Z) : result float :=
  match Z2F n with
  | S754_infinity _ => Raise OverflowError
  | x => Ok x
  end.

(** The operand of a float operation: a float, or an int converted. *)
Definition as_float (v : pyval) : result float :=
  match v with
  | PyFloat x => Ok x
  | PyInt n => float_of_int n
  | _ => Raise TypeError
  end.

(** [a / b] on two ints: the correctly rounded quotient. *)
Definition int_truediv (a b : Z) : result float :=
  if b =? 0 then Raise ZeroDivisionError
  else
    let neg := xorb (a <? 0) (b <? 0) in
    match a with
    | Z0 => Ok (S754_zero neg)
    | _ =>
        let '(mz, ez, lz) :=
          SFdiv_core_binary prec emax (Z.abs a) 0 (Z.abs b) 0 in
        match binary_round_aux prec emax neg mz ez lz with
        | S754_infinity _ => Raise OverflowError
        | x => Ok x
        end
    end.

(** [a - b] *)
Definition sub (a b : pyval) : result pyval :=
  match a, b with
  | PyInt x, PyInt y => Ok (PyInt (x - y))
  | _, _ =>
      if is_number a && is_number b then
        rbind (as_float a) (fun x =>
        rbind (as_float b) (fun y => Ok (PyFloat (fsub x y))))
      else Raise TypeError
  end.

(** [a / b] *)
Definition truediv (a b : pyval) : result pyval :=
  match a, b with
  | PyInt x, PyInt y => rbind (int_truediv x y) (fun q => Ok (PyFloat q))
  | _, _ =>
      if is_number a && is_number b then
        rbind (as_float a) (fun x =>
        rbind (as_float b) (fun y =>
        if is_zero y then Raise ZeroDivisionError
        else Ok (PyFloat (fdiv x y))))
      else Raise TypeError
  end.

(** [a * b], on numbers. *)
Definition mul (a b : pyval) : result pyval :=
  match a, b with
  | PyInt x, PyInt y => Ok (PyInt (x * y))
  | _, _ =>
      if is_number a && is_number b then
        rbind (as_float a) (fun x =>
        rbind (as_float b) (fun y => Ok (PyFloat (fmul x y))))
      else Raise TypeError
  end.

(** Dictionaries. *)
Fixpoint lookup (d : dict) (k : string) : option pyval :=
  match d with
  | [] => None
  | (k', v) :: r => if String.eqb k' k then Some v else lookup r k
  end.

(** [d.get(k)] *)
Definition dict_get (d : dict) (k : string) : pyval :=
  match lookup d k with
  | Some v => v
  | None => PyNone
  end.

(** [d[k]] *)
Definition getitem (d : dict) (k : string) : result pyval :=
  match lookup d k with
  | Some v => Ok v
  | None => Raise KeyError
  end.

(** [d[k] = v]: an existing key keeps its position. *)
Fixpoint setitem (d : dict) (k : string) (v : pyval) : dict :=
  match d with
  | [] => [(k, v)]
  | (k', v') :: r =>
      if String.eqb k' k then (k, v) :: r else (k', v') :: setitem r k v
  end.

(** [list(d)]: the keys in insertion order. *)
Definition keys (d : dict) : list string := map fst d.

(** [o.get(k)] on an arbitrary object: only dicts have the method. *)
Definition call_get (o : pyval) (k : string) : result pyval :=
  match o with
  | PyDict d => Ok (dict_get d k)
  | _ => Raise AttributeError
  end.

End Py.

(** ** MarketClock *)

Module MarketClock.
Import Py.

(** [datetime.now(et_tz)]: the current instant as a calendar date and a
    wall-clock time in US/Eastern.  The date is kept as its proleptic
    Gregorian ordinal (day 1 is Monday 0001-01-01). *)
Record datetime : Type := {
  toordinal : Z;
  hour : Z;
  minute : Z
}.

Definition valid (t : datetime) : Prop :=
  1 <= toordinal t /\ 0 <= hour t < 24 /\ 0 <= minute t < 60.

(** [datetime.weekday()]: Monday is 0 and Sunday is 6. *)
Definition weekday (t : datetime) : Z := (toordinal t + 6) mod 7.

Definition WEEKEND := "Market is closed (Weekend)".
Definition PRE_MARKET := "Pre-market hours (4:00 AM - 9:30 AM ET)".
Definition REGULAR := "Regular market hours (9:30 AM - 4:00 PM ET)".
Definition AFTER_HOURS := "After-hours (4:00 PM - 8:00 PM ET)".
Definition OUTSIDE := "Market is closed (Outside trading hours)".

(** [current_hour + current_minute/60] *)
Definition time_float (t : datetime) : float :=
  fadd (Z2F (hour t)) (fdiv (Z2F (minute t)) (Z2F 60)).

Definition is_market_open (current_time : datetime) : bool * string :=
  if 5 <=? weekday current_time then (false, WEEKEND)
  else
    let current_time_float := time_float current_time in
    if fle (Z2F 4) current_time_float && flt current_time_float (dec 95 1)
    then (true, PRE_MARKET)
    else if fle (dec 95 1) current_time_float
            && flt current_time_float (Z2F 16)
    then (true, REGULAR)
    else if fle (Z2F 16) current_time_float
            && flt current_time_float (Z2F 20)
    then (true, AFTER_HOURS)
    else (false, OUTSIDE).

(** The hour-of-day cascade of [is_market_open] on its own. *)
Definition classify_hours (current_time_float : float) : bool * string :=
  if fle (Z2F 4) current_time_float && flt current_time_float (dec 95 1)
  then (true, PRE_MARKET)
  else if fle (dec 95 1) current_time_float
          && flt current_time_float (Z2F 16)
  then (true, REGULAR)
  else if fle (Z2F 16) current_time_float
          && flt current_time_float (Z2F 20)
  then (true, AFTER_HOURS)
  else (false, OUTSIDE).

(** The session by exact arithmetic: the half-open intervals [4, 9.5),
    [9.5, 16) and [16, 20) on [t = hour + minute/60], read on the minute
    of the day [60 * t]. *)
Definition minute_of_day (t : datetime) : Z := 60 * hour t + minute t.

Definition session_by_minutes (mins : Z) : bool * string :=
  if (240 <=? mins) && (mins <? 570) then (true, PRE_MARKET)
  else if (570 <=? mins) && (mins <? 960) then (true, REGULAR)
  else if (960 <=? mins) && (mins <? 1200) then (true, AFTER_HOURS)
  else (false, OUTSIDE).

Definition at_time (day h m : Z) : datetime :=
  {| toordinal := day; hour := h; minute := m |}.

(** Every wall-clock time of a day, checked one by one: the float cascade
    agrees with the exact one. *)
Definition clock_times : list (Z * Z) :=
  flat_map (fun h => map (fun m => (Z.of_nat h, Z.of_nat m)) (seq 0 60))
           (seq 0 24).

Definition agrees_at (hm : Z * Z) : bool :=
  let t := at_time 1 (fst hm) (snd hm) in
  let '(b1, l1) := classify_hours (time_float t) in
  let '(b2, l2) := session_by_minutes (minute_of_day t) in
  Bool.eqb b1 b2 && String.eqb l1 l2.

(** The window [4 <= t < 20] on the float [t], against the exact one. *)
Definition window_agrees_at (hm : Z * Z) : bool :=
  let t := at_time 1 (fst hm) (snd hm) in
  Bool.eqb (fle (Z2F 4) (time_float t) && flt (time_float t) (Z2F 20))
           ((240 <=? minute_of_day t) && (minute_of_day t <? 1200)).

(** The calendar days that are not a Saturday or a Sunday. *)
Definition on_weekday (day : Z) : Prop := weekday (at_time day 0 0) < 5.

End MarketClock.


(** ** QuoteFetcher *)

Module QuoteFetcher.
Import Py.

(** One row of the DataFrame that [Ticker.history] returns: the columns
    the code reads.  [Close] is a numpy float64 and [Volume] an int64. *)
Record bar : Type := {
  Close : float;
  Volume : Z
}.

(** The market-data provider, over its own state [W] (the network, the
    remote service, the clock).  Each query may raise, and may change the
    state:
    - [history sym]: [yf.Ticker(sym).history(period='2d')], the rows of
      the DataFrame, oldest first;
    - [info sym]: [yf.Ticker(sym).info]. *)
Record provider (W : Type) : Type := {
  history : string -> W -> result (list bar) * W;
  info : string -> W -> result pyval * W
}.
Arguments history {W} p sym w.
Arguments info {W} p sym w.

(** Computations that call the provider: state passing with exceptions. *)
Definition M (W A : Type) : Type := W -> result A * W.

Definition ret {W A} (a : A) : M W A := fun w => (Ok a, w).

Definition bind {W A B} (c : M W A) (k : A -> M W B) : M W B :=
  fun w =>
    match c w with
    | (Ok a, w') => k a w'
    | (Raise e, w') => (Raise e, w')
    end.

Definition lift {W A} (r : result A) : M W A := fun w => (r, w).

(** [try: body  except Exception as e: handler] *)
Definition try_except {W A} (body : M W A) (handler : exn -> M W A) : M W A :=
  fun w =>
    match body w with
    | (Ok a, w') => (Ok a, w')
    | (Raise e, w') => handler e w'
    end.

Notation "x <- c ;; k" := (bind c (fun x => k))
  (at level 61, c at next level, right associativity).

(** [s.iloc[-k]] for [k >= 1] *)
Definition iloc_neg {A} (s : list A) (k : nat) : result A :=
  if (Nat.leb k (List.length s)) && (Nat.leb 1 k) then
    match nth_error s (List.length s - k) with
    | Some a => Ok a
    | None => Raise IndexError
    end
  else Raise IndexError.

Section Fetch.
Context {W : Type} (yf : provider W).

Definition get_premarket_price (ticker_symbol : string) : M W pyval :=
  try_except
    (market_data <- info yf ticker_symbol ;;
     price <- lift (call_get market_data "preMarketPrice") ;;
     regular <- lift (call_get market_data "regularMarketPrice") ;;
     previous <- lift (call_get market_data "previousClose") ;;
     let result :=
       [("Ticker", PyStr ticker_symbol);
        ("Price", price);
        ("Regular Market Price", regular);
        ("Previous Close", previous)] in
     a <- lift (getitem result "Price") ;;
     cond <- (if truthy a then lift (getitem result "Previous Close")
              else ret a) ;;
     if truthy cond then
       p <- lift (getitem result "Price") ;;
       c <- lift (getitem result "Previous Close") ;;
       change <- lift (sub p c) ;;
       let result := setitem result "Change" change in
       ch <- lift (getitem result "Change") ;;
       c' <- lift (getitem result "Previous Close") ;;
       ratio <- lift (truediv ch c') ;;
       pct <- lift (mul ratio (PyInt 100)) ;;
       let result := setitem result "Change%" pct in
       ret (PyDict result)
     else
       let result := setitem result "Change" PyNone in
       let result := setitem result "Change%" PyNone in
       ret (PyDict result))
    (fun e =>
       ret (PyDict
         [("Ticker", PyStr ticker_symbol);
          ("Price", PyNone);
          ("Regular Market Price", PyNone);
          ("Previous Close", PyNone);
          ("Change", PyNone);
          ("Change%", PyNone)])).

(** The [if] of [get_market_price] has no [else]: on an empty DataFrame
    control leaves the [try] block and the function returns [None]. *)
Definition get_market_price (ticker_symbol : string) : M W pyval :=
  try_except
    (hist <- history yf ticker_symbol ;;
     if negb (Nat.eqb (List.length hist) 0) then
       current <- lift (iloc_neg (map Close hist) 1) ;;
       prev <- (if Nat.ltb 1 (List.length hist)
                then lift (iloc_neg (map Close hist) 2)
                else ret current) ;;
       let change := fsub current prev in
       let change_percent := fmul (fdiv change prev) (Z2F 100) in
       volume <- lift (iloc_neg (map Volume hist) 1) ;;
       ret (PyDict
         [("Ticker", PyStr ticker_symbol);
          ("Price", PyFloat current);
          ("Change", PyFloat change);
          ("Change%", PyFloat change_percent);
          ("Volume", PyInt volume)])
     else ret PyNone)
    (fun e =>
       ret (PyDict
         [("Ticker", PyStr ticker_symbol);
          ("Price", PyNone);
          ("Change", PyNone);
          ("Change%", PyNone);
          ("Volume", PyNone)])).

End Fetch.

(** The record of the pre-market mode, field by field. *)
Definition premarket_record (sym : string) (p r c ch pct : pyval) : pyval :=
  PyDict
    [("Ticker", PyStr sym);
     ("Price", p);
     ("Regular Market Price", r);
     ("Previous Close", c);
     ("Change", ch);
     ("Change%", pct)].

(** The record of the regular-market mode, field by field. *)
Definition market_record (sym : string) (p ch pct vol : pyval) : pyval :=
  PyDict
    [("Ticker", PyStr sym);
     ("Price", p);
     ("Change", ch);
     ("Change%", pct);
     ("Volume", vol)].

(** [(p - c, (p - c) / c * 100)] as Python evaluates it. *)
Definition changes (p c : pyval) : result (pyval * pyval) :=
  rbind (sub p c) (fun ch =>
  rbind (truediv ch c) (fun ratio =>
  rbind (mul ratio (PyInt 100)) (fun pct => Ok (ch, pct)))).

(** What the pre-market fetch makes of a snapshot with pre-market price
    [p], regular price [r] and previous close [c]: the changes when both
    [p] and [c] are truthy, nulls otherwise; an all-null record when the
    arithmetic raises. *)
Definition premarket_outcome (sym : string) (p r c : pyval) : pyval :=
  if truthy p && truthy c then
    match changes p c with
    | Ok (ch, pct) => premarket_record sym p r c ch pct
    | Raise _ =>
        premarket_record sym PyNone PyNone PyNone PyNone PyNone
    end
  else premarket_record sym p r c PyNone PyNone.

(** A provider that answers from two tables; its state counts the calls. *)
Definition table_provider (h : string -> result (list bar))
  (i : string -> result pyval) : provider nat :=
  {| history := fun sym n => (h sym, S n);
     info := fun sym n => (i sym, S n) |}.

(** A record, with the requested symbol in its [Ticker] field. *)
Definition record_of (sym : string) (v : pyval) : Prop :=
  exists d, v = PyDict d /\ lookup d "Ticker" = Some (PyStr sym).

(** What the regular-market fetch makes of the provider's answer: the
    all-null record when the query raised, [None] on an empty history,
    and otherwise the record of the last bar against the bar before it
    (against itself when it is the only one). *)
Definition market_outcome (sym : string) (answer : result (list bar))
  : pyval :=
  match answer with
  | Raise _ => market_record sym PyNone PyNone PyNone PyNone
  | Ok hist =>
      match rev hist with
      | [] => PyNone
      | b2 :: older =>
          let b1 := match older with [] => b2 | b :: _ => b end in
          market_record sym (PyFloat (Close b2))
            (PyFloat (fsub (Close b2) (Close b1)))
            (PyFloat (fmul (fdiv (fsub (Close b2) (Close b1)) (Close b1))
                           (Z2F 100)))
            (PyInt (Volume b2))
      end
  end.

(** What the pre-market fetch makes of the provider's answer: the record
    of the snapshot when the answer is a dict, the all-null record when
    the query raised or answered anything else. *)
Definition snapshot_outcome (sym : string) (answer : result pyval) : pyval :=
  match answer with
  | Ok (PyDict d) =>
      premarket_outcome sym (dict_get d "preMarketPrice")
        (dict_get d "regularMarketPrice") (dict_get d "previousClose")
  | _ => premarket_record sym PyNone PyNone PyNone PyNone PyNone
  end.

End QuoteFetcher.

(** ** TickerListBuilder *)

Module Tickers.
Import Py.
Local Open Scope N_scope.

(** A [str] is the sequence of its Unicode code points. *)
Definition text : Type := list N.

Fixpoint text_eqb (a b : text) : bool :=
  match a, b with
  | [], [] => true
  | x :: a', y :: b' => N.eqb x y && text_eqb a' b'
  | _, _ => false
  end.

(** The code points of a literal of the source, all of them ASCII. *)
Definition txt (s : string) : text :=
  map N_of_ascii (list_ascii_of_string s).

(** The two tables of the Unicode character database that [str.upper()]
    and [str.strip()] read.  They belong to the Python runtime, not to the
    source: they are parameters of the model.
    - [to_upper c]: the full upper-case mapping of a code point, one code
      point or several (U+00DF gives "SS");
    - [isspace c]: whether [str.isspace()] holds of the code point. *)
Record chardb : Type := {
  to_upper : N -> list N;
  isspace : N -> bool
}.

Definition comma_char : N := 44.

(** What the proofs need of the tables; every clause holds of the Unicode
    database (checked on each code point of Unicode 14):
    white space has no case mapping, the mapping of any other code point
    is not empty and holds no white space, only the comma maps to a
    comma, upper-case forms are their own upper case, and below 128 the
    tables are those of ASCII. *)
Record unicode_db (db : chardb) : Prop := {
  upper_of_space : forall c, isspace db c = true -> to_upper db c = [c];
  upper_not_space :
    forall c, isspace db c = false ->
    to_upper db c <> [] /\ existsb (isspace db) (to_upper db c) = false;
  upper_comma : forall c, In comma_char (to_upper db c) -> c = comma_char;
  upper_idempotent : forall c u, In u (to_upper db c) -> to_upper db u = [u];
  ascii_upper :
    forall c, c < 128 ->
    to_upper db c = [if (97 <=? c) && (c <=? 122) then c - 32 else c];
  ascii_space :
    forall c, c < 128 ->
    isspace db c = ((9 <=? c) && (c <=? 13)) || ((28 <=? c) && (c <=? 32))
}.

Section Strings.
Variable db : chardb.

(** [s.upper()] *)
Definition upper (s : text) : text := flat_map (to_upper db) s.

Fixpoint lstrip (s : text) : text :=
  match s with
  | [] => []
  | c :: r => if isspace db c then lstrip r else s
  end.

Fixpoint rstrip (s : text) : text :=
  match s with
  | [] => []
  | c :: r =>
      match rstrip r with
      | [] => if isspace db c then [] else [c]
      | r' => c :: r'
      end
  end.

(** [s.strip()] *)
Definition strip (s : text) : text := rstrip (lstrip s).

End Strings.

(** [s.split(sep)] for a one-character separator: never empty. *)
Fixpoint split (sep : N) (s : text) : list text :=
  match s with
  | [] => [[]]
  | c :: r =>
      if N.eqb c sep then [] :: split sep r
      else
        match split sep r with
        | piece :: pieces => (c :: piece) :: pieces
        | [] => [[c]]
        end
  end.

(** [d[k] = v] in a dict keyed by [str]: an existing key keeps its
    position. *)
Fixpoint set_key (d : list (text * pyval)) (k : text) (v : pyval)
  : list (text * pyval) :=
  match d with
  | [] => [(k, v)]
  | (k', v') :: r =>
      if text_eqb k' k then (k, v) :: r else (k', v') :: set_key r k v
  end.

(** [dict.fromkeys(keys)]: each key is stored with the value [None]. *)
Definition fromkeys (ks : list text) : list (text * pyval) :=
  fold_left (fun d k => set_key d k PyNone) ks [].

(** [list(d)]: the keys in insertion order. *)
Definition list_of (d : list (text * pyval)) : list text := map fst d.

(** [bool(s)] on a [str] *)
Definition nonempty (s : text) : bool :=
  match s with
  | [] => false
  | _ => true
  end.

(** The ticker list of [main], from the default tickers and the text the
    user typed. *)
Definition build (db : chardb) (default_tickers : list text)
  (text_input : text) : list text :=
  let new_tickers := upper db text_input in
  let all_tickers := default_tickers in
  let all_tickers :=
    if nonempty new_tickers then
      let additional_tickers := map (strip db) (split comma_char new_tickers) in
      (all_tickers ++ additional_tickers)%list
    else all_tickers in
  list_of (fromkeys all_tickers).

Definition default_tickers : list text :=
  map txt
    ["NVDA"; "AAPL"; "GOOGL"; "MSFT"; "META";
     "TSLA"; "AMD"; "AMZN"; "NFLX"; "INTC";
     "SOUN"; "PLTR"; "AVGO"; "RGTI"; "IONQ"]%string.

(** The specification's reading of the builder: split, trim and upper-case
    each piece, append to the defaults, keep first occurrences. *)
Fixpoint dedup_seen (seen l : list text) : list text :=
  match l with
  | [] => []
  | x :: r =>
      if existsb (text_eqb x) seen then dedup_seen seen r
      else x :: dedup_seen (x :: seen) r
  end.

Definition tokens (db : chardb) (user_input : text) : list text :=
  match user_input with
  | [] => []
  | _ => map (fun t => upper db (strip db t)) (split comma_char user_input)
  end.

Definition build_spec (db : chardb) (defaults : list text)
  (user_input : text) : list text :=
  dedup_seen [] (defaults ++ tokens db user_input)%list.

(** Whether a comma occurs in a [str], and whether it is all ASCII. *)
Definition has_comma (s : text) : bool := existsb (N.eqb comma_char) s.

Definition is_ascii (s : text) : bool := forallb (fun c => c <? 128) s.

(** A character database to run the model on: the white space of Unicode
    and its case mapping of the code points below 256 (U+00B5 and U+00FF
    map above 255, U+00DF maps to "SS"); no case mapping above 255. *)
Definition latin1_upper (c : N) : list N :=
  if (97 <=? c) && (c <=? 122) then [c - 32]
  else if c =? 181 then [924]
  else if c =? 223 then [83; 83]
  else if ((224 <=? c) && (c <=? 246)) || ((248 <=? c) && (c <=? 254))
  then [c - 32]
  else if c =? 255 then [376]
  else [c].

Definition unicode_space (c : N) : bool :=
  ((9 <=? c) && (c <=? 13)) || ((28 <=? c) && (c <=? 32))
  || (c =? 133) || (c =? 160) || (c =? 5760)
  || ((8192 <=? c) && (c <=? 8202))
  || (c =? 8232) || (c =? 8233) || (c =? 8239) || (c =? 8287)
  || (c =? 12288).

Definition latin1 : chardb :=
  {| to_upper := latin1_upper; isspace := unicode_space |}.

End Tickers.

(** ** ReportFormatter *)

Module Formatter.
Import Py.

(** A format specification with presentation type [f]: [".2f"] is
    [{| plus := false; comma := false; precision := 2 |}]. *)
Record fspec : Type := {
  plus : bool;
  comma : bool;
  precision : nat
}.

Definition f2 : fspec := {| plus := false; comma := false; precision := 2 |}.
Definition plus_f2 : fspec := {| plus := true; comma := false; precision := 2 |}.
Definition comma_f0 : fspec := {| plus := false; comma := true; precision := 0 |}.

(** The decimal digits of a natural number, at least one digit. *)
Definition decimal (n : Z) : string :=
  NilZero.string_of_uint (N.to_uint (Z.to_N n)).

Fixpoint zeros (k : nat) : string :=
  match k with
  | O => EmptyString
  | S k' => String "0" (zeros k')
  end.

(** [s.zfill(w)] on a digit string *)
Definition zfill (w : nat) (s : string) : string :=
  zeros (w - String.length s) ++ s.

(** Thousands separators: a comma before every group of three digits
    counted from the right. *)
Fixpoint commas (s : string) : string :=
  match s with
  | EmptyString => EmptyString
  | String c r =>
      String c
        (if negb (Nat.eqb (String.length r) 0)
            && Nat.eqb (Nat.modulo (String.length r) 3) 0
         then String "," (commas r)
         else commas r)
  end.

(** The integer nearest to [num / den] for [den > 0], ties to even. *)
Definition round_half_even (num den : Z) : Z :=
  let q := num / den in
  let r := num mod den in
  match 2 * r ?= den with
  | Lt => q
  | Gt => q + 1
  | Eq => if Z.even q then q else q + 1
  end.

(** [m * 2^e * 10^p] rounded to an integer: the digits that a correctly
    rounded conversion to [p] decimals prints. *)
Definition scaled (p : nat) (m : positive) (e : Z) : Z :=
  match e with
  | Zneg k => round_half_even (Zpos m * 10 ^ Z.of_nat p) (2 ^ Zpos k)
  | _ => Zpos m * 2 ^ e * 10 ^ Z.of_nat p
  end.

Definition sign_str (sp : fspec) (neg : bool) : string :=
  if neg then "-" else if plus sp then "+" else "".

(** The digits of [n / 10^p]: integer part, and [p] decimals if any. *)
Definition digits_body (sp : fspec) (n : Z) : string :=
  let scale := 10 ^ Z.of_nat (precision sp) in
  let whole := decimal (n / scale) in
  let whole := if comma sp then commas whole else whole in
  match precision sp with
  | O => whole
  | S _ => whole ++ "." ++ zfill (precision sp) (decimal (n mod scale))
  end.

(** [format(x, spec)] on a float *)
Definition format_float (sp : fspec) (x : float) : string :=
  match x with
  | S754_nan => sign_str sp false ++ "nan"
  | S754_infinity s => sign_str sp s ++ "inf"
  | S754_zero s => sign_str sp s ++ digits_body sp 0
  | S754_finite s m e =>
      sign_str sp s ++ digits_body sp (scaled (precision sp) m e)
  end.

(** [format(v, spec)] as an f-string field evaluates it: an [int] is
    converted to a float first. *)
Definition format (v : pyval) (sp : fspec) : result string :=
  match v with
  | PyFloat x => Ok (format_float sp x)
  | PyInt n => rbind (float_of_int n) (fun x => Ok (format_float sp x))
  | _ => Raise TypeError
  end.

(** The four lambdas that [main] applies to the columns. *)

(** [lambda x: f'${x:.2f}' if isinstance(x, (int, float)) else 'N/A'] *)
Definition fmt_price (x : pyval) : result string :=
  if is_number x then rbind (format x f2) (fun s => Ok ("$" ++ s))
  else Ok "N/A".

(** [lambda x: f'${x:+.2f}' if isinstance(x, (int, float)) else 'N/A'] *)
Definition fmt_change (x : pyval) : result string :=
  if is_number x then rbind (format x plus_f2) (fun s => Ok ("$" ++ s))
  else Ok "N/A".

(** [lambda x: f'{x:+.2f}%' if isinstance(x, (int, float)) else 'N/A'] *)
Definition fmt_change_pct (x : pyval) : result string :=
  if is_number x then rbind (format x plus_f2) (fun s => Ok (s ++ "%"))
  else Ok "N/A".

(** [lambda x: f'{x:,.0f}' if isinstance(x, (int, float)) else 'N/A'] *)
Definition fmt_volume (x : pyval) : result string :=
  if is_number x then format x comma_f0
  else Ok "N/A".

(** The magnitude [m * 2^e] of a finite float as a fraction. *)
Definition numerator (m : positive) (e : Z) : Z :=
  match e with
  | Zneg _ => Zpos m
  | _ => Zpos m * 2 ^ e
  end.

Definition denominator (e : Z) : Z :=
  match e with
  | Zneg k => 2 ^ Zpos k
  | _ => 1
  end.

(** [n] hundredths (for [p = 2]) written with [p] decimals. *)
Definition fixed (p : nat) (n : Z) : string :=
  decimal (n / 10 ^ Z.of_nat p) ++ "." ++ zfill p (decimal (n mod 10 ^ Z.of_nat p)).


Definition is_digit (c : ascii) : bool :=
  (Nat.leb 48 (nat_of_ascii c)) && (Nat.leb (nat_of_ascii c) 57).

Fixpoint all_digits (s : string) : bool :=
  match s with
  | EmptyString => true
  | String c r => is_digit c && all_digits r
  end.

(** The lambda that [main] applies to the cells of column [col], if any. *)
Definition formatter_of (col : string) : option (pyval -> result string) :=
  if existsb (String.eqb col) ["Price"; "Regular Market Price"; "Previous Close"]
  then Some fmt_price
  else if String.eqb col "Change" then Some fmt_change
  else if String.eqb col "Change%" then Some fmt_change_pct
  else if String.eqb col "Volume" then Some fmt_volume
  else None.

Definition format_cell (col : string) (x : pyval) : result pyval :=
  match formatter_of col with
  | Some f => rbind (f x) (fun s => Ok (PyStr s))
  | None => Ok x
  end.

(** One record, every field formatted by the lambda of its column: the
    row that [main] shows when the table holds the values of the record
    unchanged (the table itself is [Table.DataFrame], below). *)
Fixpoint format_record (d : dict) : result dict :=
  match d with
  | [] => Ok []
  | (col, x) :: r =>
      rbind (format_cell col x) (fun y =>
      rbind (format_record r) (fun r' => Ok ((col, y) :: r')))
  end.

End Formatter.

(** ** The table that [main] formats *)

Module Table.
Import Py Formatter.

(** A DataFrame: its columns in order, each a name and its cells, one
    cell per row. *)
Definition frame : Type := list (string * list pyval).

(** The names in the order in which they first occur. *)
Fixpoint first_seen (seen l : list string) : list string :=
  match l with
  | [] => []
  | x :: r =>
      if existsb (String.eqb x) seen then first_seen seen r
      else x :: first_seen (x :: seen) r
  end.

(** The cell of a row under a column: a record that lacks the key gets
    NaN. *)
Definition cell_of (row : dict) (col : string) : pyval :=
  match lookup row col with
  | Some v => v
  | None => PyFloat S754_nan
  end.

(** numpy's int64 *)
Definition int64 (n : Z) : bool := (- 2 ^ 63 <=? n) && (n <? 2 ^ 63).

Definition is_none (v : pyval) : bool :=
  match v with PyNone => true | _ => false end.

Definition is_int (v : pyval) : bool :=
  match v with PyInt _ => true | _ => false end.

Definition is_float (v : pyval) : bool :=
  match v with PyFloat _ => true | _ => false end.

(** The values that make a column an object column: a string, a dict, an
    int beyond 64 bits. *)
Definition object_value (v : pyval) : bool :=
  match v with
  | PyStr _ | PyDict _ => true
  | PyInt n => negb (int64 n)
  | _ => false
  end.

(** A cell of a float64 column: [None] is stored as NaN, an int as the
    nearest double. *)
Definition to_float64 (v : pyval) : pyval :=
  match v with
  | PyNone => PyFloat S754_nan
  | PyInt n => PyFloat (Z2F n)
  | _ => v
  end.

(** The cells of a column as the DataFrame stores them, and as [apply]
    hands them to a function.  A column of objects keeps its values; a
    column of numbers that holds a float, or an int beside a [None],
    becomes a float64 column; a column of ints only, or of [None] only,
    keeps its values. *)
Definition infer_objects (cells : list pyval) : list pyval :=
  if existsb object_value cells then cells
  else if existsb is_float cells
          || (existsb is_int cells && existsb is_none cells)
  then map to_float64 cells
  else cells.

(** [pd.DataFrame(results)] on a list of records: one column per key, in
    the order in which the keys first occur, each with one cell per
    record. *)
Definition DataFrame (results : list dict) : frame :=
  map (fun col =>
         (col, infer_objects (map (fun row => cell_of row col) results)))
      (first_seen [] (flat_map keys results)).

(** [series.apply(f)]: the column of the strings that [f] returns. *)
Fixpoint apply (f : pyval -> result string) (cells : list pyval)
  : result (list pyval) :=
  match cells with
  | [] => Ok []
  | x :: r =>
      rbind (f x) (fun s =>
      rbind (apply f r) (fun r' => Ok (PyStr s :: r')))
  end.

(** [if col in df.columns: df[col] = df[col].apply(f)] *)
Fixpoint format_column (f : pyval -> result string) (col : string)
  (df : frame) : result frame :=
  match df with
  | [] => Ok []
  | (name, cells) :: rest =>
      if String.eqb name col then
        rbind (apply f cells) (fun cells' => Ok ((name, cells') :: rest))
      else
        rbind (format_column f col rest) (fun rest' =>
        Ok ((name, cells) :: rest'))
  end.

(** The formatting of [main]: the three price columns, then Change,
    Change% and Volume. *)
Definition format_dataframe (df : frame) : result frame :=
  rbind (format_column fmt_price "Price" df) (fun df =>
  rbind (format_column fmt_price "Regular Market Price" df) (fun df =>
  rbind (format_column fmt_price "Previous Close" df) (fun df =>
  rbind (format_column fmt_change "Change" df) (fun df =>
  rbind (format_column fmt_change_pct "Change%" df) (fun df =>
  format_column fmt_volume "Volume" df))))).

(** The records that the properties below speak of: every int fits in 64
    bits, as the numbers that the provider sends do. *)
Definition fits (v : pyval) : bool :=
  match v with
  | PyInt n => int64 n
  | _ => true
  end.

Definition ints_fit (results : list dict) : bool :=
  forallb (forallb (fun kv => fits (snd kv))) results.

(** The cell that [apply] stores for [x]: the string that [f] returns. *)
Definition shown (f : pyval -> result string) (x : pyval) : pyval :=
  match f x with
  | Ok s => PyStr s
  | Raise _ => x
  end.

(** What a cell is displayed as: the string of its column's lambda, or
    the cell itself in a column that is not formatted. *)
Definition displayed (col : string) (x y : pyval) : Prop :=
  format_cell col x = Ok y.

End Table.

(** ** The fetch loop of [main] *)

Module Dashboard.
Import Py QuoteFetcher.

(** [for x in xs: body], threading the loop's variables [s] *)
Fixpoint for_each {W X S} (xs : list X) (body : X -> S -> M W S) (s : S)
  : M W S :=
  match xs with
  | [] => ret s
  | x :: r => s' <- body x s ;; for_each r body s'
  end.

Section Loop.
Context {W : Type} (yf : provider W).

(** The body of the loop: one fetch, by the selected market type. *)
Definition fetch_one (market_type ticker : string) : M W pyval :=
  if String.eqb market_type "pre_market" then get_premarket_price yf ticker
  else get_market_price yf ticker.

(** The body of the loop of [main], on the list [results]. *)
Definition loop_body (market_type : string) (ticker : string)
  (results : list pyval) : M W (list pyval) :=
  data <- fetch_one market_type ticker ;;
  ret (results ++ [data])%list.

Definition fetch_all (market_type : string) (all_tickers : list string)
  : M W (list pyval) :=
  let results := [] in
  for_each all_tickers (loop_body market_type) results.

End Loop.

Section Batch.
Context {W : Type} (yf : provider W).

(** The result for one ticker in provider state [w], from the answer the
    provider gives there, and the state the query leaves. *)
Definition outcome (market_type ticker : string) (w : W) : pyval * W :=
  if String.eqb market_type "pre_market" then
    (snapshot_outcome ticker (fst (info yf ticker w)),
     snd (info yf ticker w))
  else
    (market_outcome ticker (fst (history yf ticker w)),
     snd (history yf ticker w)).

(** The results for a list of tickers, each from the provider's answer in
    the state that the queries before it left. *)
Fixpoint batch (market_type : string) (tickers : list string) (w : W)
  : list pyval * W :=
  match tickers with
  | [] => ([], w)
  | t :: r =>
      let (v, w1) := outcome market_type t w in
      let (vs, w2) := batch market_type r w1 in
      (v :: vs, w2)
  end.

End Batch.

End Dashboard.

(** ** What [main] shows: the ticker line and the download's file name *)

Module Display.
Import Py Tickers Formatter.

(** [sep.join(items)] *)
Fixpoint join (sep : text) (items : list text) : text :=
  match items with
  | [] => []
  | x :: r =>
      match r with
      | [] => x
      | _ => (x ++ sep ++ join sep r)%list
      end
  end.

(** [', '.join(all_tickers)], the line under 'Current Ticker List' *)
Definition ticker_line (all_tickers : list text) : text :=
  join (txt ", ") all_tickers.





(** The number that a string of decimal digits denotes. *)
Definition digits_value (s : string) : Z :=
  fold_left (fun acc c => 10 * acc + (Z.of_nat (nat_of_ascii c) - 48))
            (list_ascii_of_string s) 0.


(** A zero-padded field of width [w] is [w] digits that denote [n]. *)
Definition field_ok (w : nat) (n : Z) : bool :=
  let s := zfill w (decimal n) in
  Nat.eqb (String.length s) w && all_digits s && (digits_value s =? n).

End Display.

(** ** Sample providers and snapshots *)

Module Fixtures.
Import Py QuoteFetcher.

Definition offline : provider nat :=
  table_provider (fun _ => Raise (OtherError "offline"))
                 (fun _ => Raise (OtherError "offline")).

(** A provider that knows no symbol: every history is an empty DataFrame. *)
Definition no_data : provider nat :=
  table_provider (fun _ => Ok []) (fun _ => Ok (PyDict [])).

(** A snapshot whose pre-market price is present and is 0.0. *)
Definition zero_price_snapshot : dict :=
  [("preMarketPrice", PyFloat (S754_zero false));
   ("regularMarketPrice", PyFloat (dec 105 1));
   ("previousClose", PyFloat (Z2F 10))].

(** A snapshot with pre-market price 151.5 and previous close 150. *)
Definition sample_snapshot : dict :=
  [("preMarketPrice", PyFloat (dec 1515 1));
   ("regularMarketPrice", PyFloat (dec 1502 1));
   ("previousClose", PyFloat (Z2F 150))].

Definition snapshot_provider (d : dict) : provider nat :=
  table_provider (fun _ => Raise (OtherError "unused"))
                 (fun _ => Ok (PyDict d)).

Definition bars_provider (bars : list bar) : provider nat :=
  table_provider (fun _ => Ok bars) (fun _ => Raise (OtherError "unused")).

Definition bar_150 : bar := {| Close := Z2F 150; Volume := 1234567 |}.
Definition bar_148 : bar := {| Close := Z2F 148; Volume := 7654321 |}.
Definition bar_zero : bar := {| Close := S754_zero false; Volume := 1000 |}.
Definition bar_nan : bar := {| Close := S754_nan; Volume := 0 |}.

(** A snapshot whose pre-market price came as text. *)
Definition text_price_snapshot : dict :=
  [("preMarketPrice", PyStr "151.50");
   ("regularMarketPrice", PyFloat (dec 1502 1));
   ("previousClose", PyFloat (Z2F 150))].

(** AAPL has two bars, MSFT fails, every other symbol has no data. *)
Definition mixed : provider nat :=
  table_provider
    (fun sym =>
       if String.eqb sym "AAPL" then Ok [bar_148; bar_150]
       else if String.eqb sym "MSFT" then Raise (OtherError "timeout")
       else Ok [])
    (fun sym =>
       if String.eqb sym "AAPL" then Ok (PyDict sample_snapshot)
       else Raise (OtherError "timeout")).

(** The results of a batch in which AAPL succeeds and MSFT fails. *)
Definition sample_rows : list dict :=
  [[("Ticker", PyStr "AAPL"); ("Price", PyFloat (Z2F 150));
    ("Change", PyFloat (Z2F 2));
    ("Change%", PyFloat (fmul (fdiv (Z2F 2) (Z2F 148)) (Z2F 100)));
    ("Volume", PyInt 1234567)];
   [("Ticker", PyStr "MSFT"); ("Price", PyNone); ("Change", PyNone);
    ("Change%", PyNone); ("Volume", PyNone)]].


End Fixtures.

(** * Properties *)

Import Py MarketClock QuoteFetcher Tickers Formatter Dashboard.

(** ** MarketClock *)

Lemma is_market_open_unfold (t : datetime) :
  is_market_open t =
  if 5 <=? weekday t then (false, WEEKEND) else classify_hours (time_float t).
Proof. reflexivity. Qed.

Lemma clock_times_complete (h m : Z) :
  0 <= h < 24 -> 0 <= m < 60 -> In (h, m) clock_times.
Proof.
  intros Hh Hm. unfold clock_times. apply in_flat_map.
  exists (Z.to_nat h). split.
  - apply in_seq. lia.
  - apply in_map_iff. exists (Z.to_nat m). split.
    + f_equal; lia.
    + apply in_seq. lia.
Qed.

Lemma clock_times_agree : forallb agrees_at clock_times = true.
Proof. vm_compute. reflexivity. Qed.

(** On every valid wall-clock time the float computation
    [hour + minute/60] classifies as exact arithmetic does. *)
Lemma classify_hours_exact (t : datetime) :
  0 <= hour t < 24 -> 0 <= minute t < 60 ->
  classify_hours (time_float t) = session_by_minutes (minute_of_day t).
Proof.
  intros Hh Hm.
  pose proof (clock_times_complete _ _ Hh Hm) as Hin.
  pose proof clock_times_agree as Hall.
  rewrite forallb_forall in Hall. specialize (Hall _ Hin).
  unfold agrees_at in Hall. cbn [fst snd] in Hall.
  change (time_float (at_time 1 (hour t) (minute t))) with (time_float t) in Hall.
  change (minute_of_day (at_time 1 (hour t) (minute t)))
    with (minute_of_day t) in Hall.
  destruct (classify_hours (time_float t)) as [b1 l1].
  destruct (session_by_minutes (minute_of_day t)) as [b2 l2].
  apply andb_true_iff in Hall. destruct Hall as [Hb Hl].
  apply Bool.eqb_prop in Hb. apply String.eqb_eq in Hl. congruence.
Qed.

Lemma window_times_agree : forallb window_agrees_at clock_times = true.
Proof. vm_compute. reflexivity. Qed.

Lemma window_exact (t : datetime) :
  0 <= hour t < 24 -> 0 <= minute t < 60 ->
  fle (Z2F 4) (time_float t) && flt (time_float t) (Z2F 20)
  = (240 <=? minute_of_day t) && (minute_of_day t <? 1200).
Proof.
  intros Hh Hm.
  pose proof (clock_times_complete _ _ Hh Hm) as Hin.
  pose proof window_times_agree as Hall.
  rewrite forallb_forall in Hall. specialize (Hall _ Hin).
  unfold window_agrees_at in Hall. cbn [fst snd] in Hall.
  change (time_float (at_time 1 (hour t) (minute t))) with (time_float t) in Hall.
  change (minute_of_day (at_time 1 (hour t) (minute t)))
    with (minute_of_day t) in Hall.
  now apply Bool.eqb_prop in Hall.
Qed.

Lemma is_market_open_weekday (t : datetime) :
  weekday t < 5 -> is_market_open t = classify_hours (time_float t).
Proof.
  intros H. rewrite is_market_open_unfold.
  destruct (5 <=? weekday t) eqn:E; [apply Z.leb_le in E; lia | reflexivity].
Qed.

Lemma is_market_open_weekend (t : datetime) :
  5 <= weekday t -> is_market_open t = (false, WEEKEND).
Proof.
  intros H. rewrite is_market_open_unfold.
  destruct (5 <=? weekday t) eqn:E; [reflexivity | apply Z.leb_gt in E; lia].
Qed.

(** C4. On a weekday the classifier returns: at 09:29 open with the
    pre-market label, at 09:30 and at 15:59 open with the regular-hours
    label, at 16:00 open with the after-hours label, and at 20:00 closed
    with the outside-trading-hours label. *)
Theorem session_boundaries (day : Z) :
  on_weekday day ->
  is_market_open (at_time day 9 29) = (true, PRE_MARKET) /\
  is_market_open (at_time day 9 30) = (true, REGULAR) /\
  is_market_open (at_time day 15 59) = (true, REGULAR) /\
  is_market_open (at_time day 16 0) = (true, AFTER_HOURS) /\
  is_market_open (at_time day 20 0) = (false, OUTSIDE).
Proof.
  intros Hd.
  repeat split; rewrite is_market_open_weekday by exact Hd;
    vm_compute; reflexivity.
Qed.

Lemma session_boundaries_witness :
  on_weekday 739201 /\
  is_market_open (at_time 739201 9 29) = (true, PRE_MARKET) /\
  is_market_open (at_time 739201 20 0) = (false, OUTSIDE).
Proof.
  assert (Hd : on_weekday 739201) by (unfold on_weekday; vm_compute; reflexivity).
  split; [exact Hd |].
  destruct (session_boundaries 739201 Hd) as (H1 & _ & _ & _ & H5).
  split; assumption.
Defined.

(** C5, as the code has it.  For every instant on a Saturday or a Sunday
    (Eastern time) the classifier returns closed, with the label
    "Market is closed (Weekend)", whatever the time of day. *)
Theorem weekend_closed (t : datetime) :
  weekday t = 5 \/ weekday t = 6 ->
  is_market_open t = (false, "Market is closed (Weekend)").
Proof.
  intros H. apply is_market_open_weekend. lia.
Qed.

Lemma weekend_closed_witness :
  weekday (at_time 739206 10 30) = 5 /\
  is_market_open (at_time 739206 10 30) = (false, "Market is closed (Weekend)").
Proof.
  assert (H : weekday (at_time 739206 10 30) = 5) by (vm_compute; reflexivity).
  split; [exact H |].
  apply (weekend_closed (at_time 739206 10 30)). left. exact H.
Defined.

(** C5, as the claim words it, fails: on a Saturday the label is not the
    string "Weekend". *)
Lemma weekend_label_counterexample :
  weekday (at_time 739206 10 30) = 5 /\
  is_market_open (at_time 739206 10 30) <> (false, "Weekend").
Proof.
  split; [vm_compute; reflexivity |].
  vm_compute. discriminate.
Qed.

(** C10. For every instant the boolean agrees with the label: it is true
    exactly on a weekday with [4 <= t < 20] (on the float [t], and so on
    the exact minute of the day), exactly when the label is one of the
    three open labels; it is false exactly when the label is one of the
    two closed labels. *)
Theorem open_iff_label (t : datetime) :
  valid t ->
  let b := fst (is_market_open t) in
  let label := snd (is_market_open t) in
  (b = true <->
     weekday t < 5 /\
     fle (Z2F 4) (time_float t) = true /\ flt (time_float t) (Z2F 20) = true) /\
  (b = true <-> weekday t < 5 /\ 240 <= minute_of_day t < 1200) /\
  (b = true <->
     label = PRE_MARKET \/ label = REGULAR \/ label = AFTER_HOURS) /\
  (b = false <-> label = WEEKEND \/ label = OUTSIDE).
Proof.
  intros (Hd & Hh & Hm). cbv zeta.
  pose proof (window_exact t Hh Hm) as Hw.
  rewrite is_market_open_unfold.
  destruct (5 <=? weekday t) eqn:Ewd.
  - apply Z.leb_le in Ewd. cbn [fst snd].
    repeat split; intros; try discriminate; try lia; auto.
    + destruct H as [H | [H | H]]; discriminate H.
  - apply Z.leb_gt in Ewd.
    rewrite (classify_hours_exact t Hh Hm).
    assert (Hwin : fle (Z2F 4) (time_float t) = true /\
                   flt (time_float t) (Z2F 20) = true
                   <-> 240 <= minute_of_day t < 1200).
    { rewrite <- andb_true_iff, Hw, andb_true_iff, Z.leb_le, Z.ltb_lt.
      reflexivity. }
    unfold session_by_minutes.
    destruct (240 <=? minute_of_day t) eqn:E1;
    destruct (minute_of_day t <? 570) eqn:E2;
    destruct (570 <=? minute_of_day t) eqn:E3;
    destruct (minute_of_day t <? 960) eqn:E4;
    destruct (960 <=? minute_of_day t) eqn:E5;
    destruct (minute_of_day t <? 1200) eqn:E6;
    cbn [andb fst snd];
    rewrite ?Z.leb_le, ?Z.leb_gt, ?Z.ltb_lt, ?Z.ltb_ge in *;
    try lia;
    (repeat split; intros;
     try discriminate; try tauto; try lia;
     try (rewrite Hwin in *; lia);
     try (exfalso; intuition (try discriminate; try lia))).
Qed.

Lemma open_iff_label_witness :
  valid (at_time 739201 10 15) /\
  fst (is_market_open (at_time 739201 10 15)) = true /\
  snd (is_market_open (at_time 739201 10 15)) = REGULAR.
Proof.
  assert (Hv : valid (at_time 739201 10 15))
    by (unfold valid; cbn; lia).
  split; [exact Hv |].
  destruct (open_iff_label (at_time 739201 10 15) Hv) as (_ & H2 & _ & _).
  split.
  - apply H2. split; [vm_compute; reflexivity | cbn; lia].
  - vm_compute. reflexivity.
Defined.

(** ** TickerListBuilder *)

Lemma text_eqb_eq (a b : text) : text_eqb a b = true <-> a = b.
Proof.
  revert b. induction a as [| x a' IH]; intros [| y b']; cbn [text_eqb];
    try (split; discriminate); [tauto |].
  rewrite andb_true_iff, N.eqb_eq, IH. split.
  - intros [-> ->]. reflexivity.
  - intros [= -> ->]. tauto.
Qed.

Lemma text_eqb_refl (a : text) : text_eqb a a = true.
Proof. now apply text_eqb_eq. Qed.

(** The tables of [latin1] have the properties of the Unicode database. *)
Ltac bool_to_prop :=
  repeat match goal with
    | H : (_ && _)%bool = true |- _ => apply andb_true_iff in H; destruct H
    | H : (_ || _)%bool = false |- _ => apply orb_false_iff in H; destruct H
    | H : (_ && _)%bool = false |- _ => apply andb_false_iff in H; destruct H
    | H : (_ || _)%bool = true |- _ => apply orb_true_iff in H; destruct H
    | H : (_ <=? _)%N = true |- _ => apply N.leb_le in H
    | H : (_ <=? _)%N = false |- _ => apply N.leb_gt in H
    | H : (_ <? _)%N = true |- _ => apply N.ltb_lt in H
    | H : (_ <? _)%N = false |- _ => apply N.ltb_ge in H
    | H : (_ =? _)%N = true |- _ => apply N.eqb_eq in H
    | H : (_ =? _)%N = false |- _ => apply N.eqb_neq in H
    end.

Ltac split_ifs :=
  repeat match goal with
    | |- context [if ?b then _ else _] => destruct b eqn:?
    end.

Lemma unicode_space_of (c : N) :
  unicode_space c = true <->
  (9 <= c <= 13 \/ 28 <= c <= 32 \/ c = 133 \/ c = 160 \/ c = 5760
   \/ 8192 <= c <= 8202 \/ c = 8232 \/ c = 8233 \/ c = 8239 \/ c = 8287
   \/ c = 12288)%N.
Proof.
  unfold unicode_space.
  rewrite !orb_true_iff, !andb_true_iff, !N.leb_le, !N.eqb_eq. tauto.
Qed.

Lemma unicode_space_not (c : N) :
  ~ (9 <= c <= 13 \/ 28 <= c <= 32 \/ c = 133 \/ c = 160 \/ c = 5760
     \/ 8192 <= c <= 8202 \/ c = 8232 \/ c = 8233 \/ c = 8239 \/ c = 8287
     \/ c = 12288)%N ->
  unicode_space c = false.
Proof.
  intros H. destruct (unicode_space c) eqn:E; [| reflexivity].
  apply unicode_space_of in E. tauto.
Qed.

Lemma latin1_unicode : unicode_db latin1.
Proof.
  constructor; cbn [to_upper isspace latin1].
  - intros c H. apply unicode_space_of in H.
    unfold latin1_upper. split_ifs; try reflexivity; bool_to_prop; lia.
  - intros c H.
    assert (Hn : ~ (9 <= c <= 13 \/ 28 <= c <= 32 \/ c = 133 \/ c = 160
                    \/ c = 5760 \/ 8192 <= c <= 8202 \/ c = 8232
                    \/ c = 8233 \/ c = 8239 \/ c = 8287 \/ c = 12288)%N).
    { intros Hs. apply unicode_space_of in Hs. congruence. }
    unfold latin1_upper. split_ifs; (split; [discriminate |]);
      cbn [existsb]; rewrite ?orb_false_r;
      try (apply unicode_space_not; bool_to_prop; lia);
      try exact H; try reflexivity.
  - intros c. unfold latin1_upper, comma_char.
    split_ifs; cbn [In]; intros Hin; bool_to_prop; lia.
  - intros c u. unfold latin1_upper at 1.
    split_ifs; cbn [In]; intros Hin; decompose [or] Hin;
      try contradiction; subst u; unfold latin1_upper; split_ifs;
      try reflexivity; bool_to_prop; lia.
  - intros c Hc. unfold latin1_upper.
    split_ifs; try reflexivity; bool_to_prop; try lia.
  - intros c Hc. unfold unicode_space.
    replace (c =? 133)%N with false by (symmetry; apply N.eqb_neq; lia).
    replace (c =? 160)%N with false by (symmetry; apply N.eqb_neq; lia).
    replace (c =? 5760)%N with false by (symmetry; apply N.eqb_neq; lia).
    replace (8192 <=? c)%N with false by (symmetry; apply N.leb_gt; lia).
    replace (c =? 8232)%N with false by (symmetry; apply N.eqb_neq; lia).
    replace (c =? 8233)%N with false by (symmetry; apply N.eqb_neq; lia).
    replace (c =? 8239)%N with false by (symmetry; apply N.eqb_neq; lia).
    replace (c =? 8287)%N with false by (symmetry; apply N.eqb_neq; lia).
    replace (c =? 12288)%N with false by (symmetry; apply N.eqb_neq; lia).
    cbn [andb]. now rewrite !orb_false_r.
Qed.

Section BuilderProps.
Variable db : chardb.
Hypothesis Hdb : unicode_db db.

Lemma to_upper_comma : to_upper db comma_char = [comma_char].
Proof. rewrite (ascii_upper db Hdb comma_char); [reflexivity | unfold comma_char; lia]. Qed.

Lemma to_upper_not_nil (c : N) : to_upper db c <> [].
Proof.
  destruct (isspace db c) eqn:E.
  - rewrite (upper_of_space db Hdb c E). discriminate.
  - apply (upper_not_space db Hdb c E).
Qed.

Lemma to_upper_no_comma (c : N) :
  c <> comma_char -> has_comma (to_upper db c) = false.
Proof.
  intros Hc. unfold has_comma.
  destruct (existsb (N.eqb comma_char) (to_upper db c)) eqn:E; [| reflexivity].
  apply existsb_exists in E. destruct E as (u & Hu & Eu).
  apply N.eqb_eq in Eu. subst u. now apply (upper_comma db Hdb) in Hu.
Qed.

Lemma upper_app (a b : text) : upper db (a ++ b)%list = (upper db a ++ upper db b)%list.
Proof. unfold upper. apply flat_map_app. Qed.

Lemma upper_nil (s : text) : upper db s = [] -> s = [].
Proof.
  destruct s as [| c r]; [reflexivity |]. unfold upper. cbn [flat_map].
  intros H. apply app_eq_nil in H. destruct H as [H _].
  now apply to_upper_not_nil in H.
Qed.

Lemma split_not_nil (sep : N) (s : text) : split sep s <> [].
Proof.
  destruct s as [| c r]; cbn [split]; [discriminate |].
  destruct (N.eqb c sep); [discriminate |].
  destruct (split sep r); discriminate.
Qed.

Lemma split_app_no_comma (a b : text) :
  has_comma a = false ->
  split comma_char (a ++ b)%list
  = match split comma_char b with
    | piece :: pieces => (a ++ piece)%list :: pieces
    | [] => [a]
    end.
Proof.
  induction a as [| c r IH]; cbn [app].
  - intros _. destruct (split comma_char b) eqn:E; [| reflexivity].
    now apply split_not_nil in E.
  - unfold has_comma. cbn [existsb]. intros H.
    apply orb_false_iff in H. destruct H as [Hc Hr].
    cbn [split]. rewrite N.eqb_sym, Hc, (IH Hr).
    destruct (split comma_char b); reflexivity.
Qed.

Lemma split_upper (s : text) :
  split comma_char (upper db s) = map (upper db) (split comma_char s).
Proof.
  induction s as [| c r IH]; [reflexivity |].
  change (upper db (c :: r)) with (to_upper db c ++ upper db r)%list.
  cbn [split]. destruct (N.eqb c comma_char) eqn:Ec.
  - apply N.eqb_eq in Ec. subst c. rewrite to_upper_comma.
    cbn [app split map]. rewrite N.eqb_refl, IH. reflexivity.
  - apply N.eqb_neq in Ec.
    rewrite (split_app_no_comma _ _ (to_upper_no_comma c Ec)), IH.
    destruct (split comma_char r) as [| piece pieces] eqn:E.
    + now apply split_not_nil in E.
    + reflexivity.
Qed.

Lemma lstrip_upper (s : text) : lstrip db (upper db s) = upper db (lstrip db s).
Proof.
  induction s as [| c r IH]; [reflexivity |].
  change (upper db (c :: r)) with (to_upper db c ++ upper db r)%list.
  cbn [lstrip]. destruct (isspace db c) eqn:Ec.
  - rewrite (upper_of_space db Hdb c Ec). cbn [app lstrip].
    now rewrite Ec.
  - destruct (upper_not_space db Hdb c Ec) as [Hne Hsp].
    destruct (to_upper db c) as [| u us] eqn:Eu; [congruence |].
    cbn [existsb] in Hsp. apply orb_false_iff in Hsp. destruct Hsp as [Hu _].
    change (upper db (c :: r)) with (to_upper db c ++ upper db r)%list.
    rewrite Eu. cbn [app lstrip]. now rewrite Hu.
Qed.

Lemma rstrip_app (a b : text) :
  rstrip db (a ++ b)%list
  = match rstrip db b with
    | [] => rstrip db a
    | r' => (a ++ r')%list
    end.
Proof.
  induction a as [| c r IH]; cbn [app].
  - destruct (rstrip db b); reflexivity.
  - cbn [rstrip]. rewrite IH.
    destruct (rstrip db b) as [| x r'] eqn:E; [reflexivity |].
    destruct r; reflexivity.
Qed.

Lemma rstrip_no_space (a : text) :
  existsb (isspace db) a = false -> rstrip db a = a.
Proof.
  induction a as [| c r IH]; [reflexivity |].
  cbn [existsb rstrip]. intros H. apply orb_false_iff in H.
  destruct H as [Hc Hr]. rewrite (IH Hr), Hc. destruct r; reflexivity.
Qed.

Lemma rstrip_upper (s : text) : rstrip db (upper db s) = upper db (rstrip db s).
Proof.
  induction s as [| c r IH]; [reflexivity |].
  change (upper db (c :: r)) with (to_upper db c ++ upper db r)%list.
  rewrite rstrip_app, IH. cbn [rstrip].
  destruct (rstrip db r) as [| x r'] eqn:E.
  - cbn [upper flat_map]. destruct (isspace db c) eqn:Ec.
    + rewrite (upper_of_space db Hdb c Ec). cbn [rstrip]. now rewrite Ec.
    + destruct (upper_not_space db Hdb c Ec) as [_ Hsp].
      rewrite (rstrip_no_space _ Hsp). unfold upper. cbn [flat_map].
      now rewrite app_nil_r.
  - destruct (upper db (x :: r')) as [| y ys] eqn:Eu.
    + now apply upper_nil in Eu.
    + change (upper db (c :: x :: r'))
        with (to_upper db c ++ upper db (x :: r'))%list.
      now rewrite Eu.
Qed.

Lemma strip_upper (s : text) : strip db (upper db s) = upper db (strip db s).
Proof. unfold strip. now rewrite lstrip_upper, rstrip_upper. Qed.

(** The pieces that the code appends are the tokens of the specification:
    upper-casing the whole text first changes nothing. *)
Lemma additional_tickers_tokens (t : text) :
  (if nonempty (upper db t)
   then map (strip db) (split comma_char (upper db t)) else [])
  = tokens db t.
Proof.
  unfold tokens. destruct t as [| c r]; [reflexivity |].
  assert (Hn : nonempty (upper db (c :: r)) = true).
  { destruct (upper db (c :: r)) as [| y ys] eqn:Eu; [| reflexivity].
    now apply upper_nil in Eu. }
  rewrite Hn, split_upper, map_map.
  apply map_ext. intros p. apply strip_upper.
Qed.

End BuilderProps.

Lemma existsb_eqb_In (x : text) (l : list text) :
  existsb (text_eqb x) l = true <-> In x l.
Proof.
  rewrite existsb_exists. split.
  - intros (y & Hy & E). apply text_eqb_eq in E. now subst.
  - intros H. exists x. split; [exact H | apply text_eqb_refl].
Qed.

Lemma text_eqb_sym (a b : text) : text_eqb a b = text_eqb b a.
Proof.
  apply eq_true_iff_eq. rewrite !text_eqb_eq. split; congruence.
Qed.

Lemma keys_set_key (d : list (text * pyval)) (k : text) (v : pyval) :
  list_of (set_key d k v)
  = if existsb (text_eqb k) (list_of d) then list_of d
    else (list_of d ++ [k])%list.
Proof.
  induction d as [| [k' v'] r IH]; cbn [set_key list_of map existsb fst];
    [reflexivity |].
  rewrite (text_eqb_sym k k').
  destruct (text_eqb k' k) eqn:E; cbn [orb map fst].
  - apply text_eqb_eq in E. now subst.
  - fold (list_of r). fold (list_of (set_key r k v)). rewrite IH.
    destruct (existsb (text_eqb k) (list_of r)); reflexivity.
Qed.

Lemma dedup_seen_ext (s1 s2 l : list text) :
  (forall x, In x s1 <-> In x s2) -> dedup_seen s1 l = dedup_seen s2 l.
Proof.
  revert s1 s2. induction l as [| x r IH]; intros s1 s2 H; [reflexivity |].
  cbn [dedup_seen].
  assert (E : existsb (text_eqb x) s1 = existsb (text_eqb x) s2).
  { apply eq_true_iff_eq. rewrite !existsb_eqb_In. apply H. }
  rewrite E. destruct (existsb (text_eqb x) s2).
  - now apply IH.
  - f_equal. apply IH. intros y. cbn [In]. now rewrite H.
Qed.

(** [dict.fromkeys] keeps each key at the place of its first occurrence. *)
Lemma keys_fold_set_key (l : list text) (d : list (text * pyval)) :
  list_of (fold_left (fun d k => set_key d k PyNone) l d)
  = (list_of d ++ dedup_seen (list_of d) l)%list.
Proof.
  revert d. induction l as [| x r IH]; intros d; cbn [fold_left dedup_seen].
  - now rewrite app_nil_r.
  - rewrite IH, keys_set_key.
    destruct (existsb (text_eqb x) (list_of d)); [reflexivity |].
    rewrite <- app_assoc. cbn [app]. do 2 f_equal.
    apply dedup_seen_ext. intros y. rewrite in_app_iff. cbn [In]. tauto.
Qed.

Lemma keys_fromkeys (l : list text) : list_of (fromkeys l) = dedup_seen [] l.
Proof. unfold fromkeys. now rewrite keys_fold_set_key. Qed.

Lemma dedup_seen_In (l seen : list text) (x : text) :
  In x (dedup_seen seen l) <-> In x l /\ ~ In x seen.
Proof.
  revert seen. induction l as [| y r IH]; intros seen; cbn [dedup_seen In].
  - tauto.
  - destruct (existsb (text_eqb y) seen) eqn:E.
    + apply existsb_eqb_In in E. rewrite IH.
      split; [tauto |]. intros [[-> | H] Hn]; tauto.
    + assert (Hy : ~ In y seen).
      { intros H. apply existsb_eqb_In in H. congruence. }
      cbn [In]. rewrite IH. cbn [In].
      destruct (list_eq_dec N.eq_dec y x) as [-> | Hne]; tauto.
Qed.

Lemma dedup_seen_NoDup (l seen : list text) : NoDup (dedup_seen seen l).
Proof.
  revert seen. induction l as [| y r IH]; intros seen; cbn [dedup_seen].
  - constructor.
  - destruct (existsb (text_eqb y) seen); [apply IH |].
    constructor; [| apply IH].
    rewrite dedup_seen_In. cbn [In]. tauto.
Qed.

Lemma build_unfold (db : chardb) (defaults : list text) (t : text) :
  unicode_db db ->
  build db defaults t = dedup_seen [] (defaults ++ tokens db t)%list.
Proof.
  intros Hdb. unfold build.
  rewrite keys_fromkeys, <- (additional_tickers_tokens db Hdb).
  destruct (nonempty (upper db t)); [reflexivity |].
  now rewrite app_nil_r.
Qed.

(** On ASCII text the tables matter only through their ASCII part. *)
Section AsciiAgree.
Variable db1 : chardb.
Variable db2 : chardb.
Hypothesis H1 : unicode_db db1.
Hypothesis H2 : unicode_db db2.

Lemma upper_ascii (s : text) :
  is_ascii s = true -> upper db1 s = upper db2 s.
Proof.
  induction s as [| c r IH]; [reflexivity |].
  cbn [is_ascii forallb]. intros H. apply andb_true_iff in H.
  destruct H as [Hc Hr]. apply N.ltb_lt in Hc.
  unfold upper in *. cbn [flat_map].
  rewrite (ascii_upper db1 H1 c Hc), (ascii_upper db2 H2 c Hc).
  f_equal. now apply IH.
Qed.

Lemma lstrip_ascii (s : text) :
  is_ascii s = true ->
  lstrip db1 s = lstrip db2 s /\ is_ascii (lstrip db1 s) = true.
Proof.
  induction s as [| c r IH]; [split; reflexivity |].
  intros H. pose proof H as Hall.
  cbn [is_ascii forallb] in H. apply andb_true_iff in H.
  destruct H as [Hc Hr]. apply N.ltb_lt in Hc.
  cbn [lstrip].
  rewrite (ascii_space db1 H1 c Hc), (ascii_space db2 H2 c Hc).
  destruct (_ || _)%bool; [now apply IH | split; [reflexivity | exact Hall]].
Qed.

Lemma rstrip_ascii (s : text) :
  is_ascii s = true ->
  rstrip db1 s = rstrip db2 s /\ is_ascii (rstrip db1 s) = true.
Proof.
  induction s as [| c r IH]; [split; reflexivity |].
  intros H. cbn [is_ascii forallb] in H. apply andb_true_iff in H.
  destruct H as [Hc Hr]. pose proof Hc as Hc'. apply N.ltb_lt in Hc.
  destruct (IH Hr) as [E Ha]. cbn [rstrip]. rewrite <- E.
  rewrite (ascii_space db1 H1 c Hc), (ascii_space db2 H2 c Hc).
  destruct (rstrip db1 r) as [| x r'] eqn:Er.
  - destruct (_ || _)%bool; split; try reflexivity.
    cbn [is_ascii forallb]. now rewrite Hc'.
  - split; [reflexivity |]. cbn [is_ascii forallb] in *.
    now rewrite Hc', Ha.
Qed.

Lemma strip_ascii (s : text) :
  is_ascii s = true ->
  strip db1 s = strip db2 s /\ is_ascii (strip db1 s) = true.
Proof.
  intros H. unfold strip. destruct (lstrip_ascii s H) as [E Ha].
  rewrite <- E. now apply rstrip_ascii.
Qed.

Lemma split_ascii (sep : N) (s : text) :
  is_ascii s = true -> forallb is_ascii (split sep s) = true.
Proof.
  induction s as [| c r IH]; [reflexivity |].
  intros H. cbn [is_ascii forallb] in H. apply andb_true_iff in H.
  destruct H as [Hc Hr]. specialize (IH Hr). cbn [split].
  destruct (N.eqb c sep); [exact IH |].
  destruct (split sep r) as [| piece pieces].
  - cbn. now rewrite Hc.
  - cbn [forallb] in *. apply andb_true_iff in IH. destruct IH as [Hp Hps].
    cbn [is_ascii forallb]. fold (is_ascii piece). now rewrite Hc, Hp, Hps.
Qed.

Lemma tokens_ascii (t : text) :
  is_ascii t = true -> tokens db1 t = tokens db2 t.
Proof.
  intros H. unfold tokens. destruct t as [| c r]; [reflexivity |].
  apply map_ext_in. intros p Hp.
  pose proof (split_ascii comma_char (c :: r) H) as Hall.
  rewrite forallb_forall in Hall. specialize (Hall p Hp).
  destruct (strip_ascii p Hall) as [E Ha].
  rewrite <- E. now apply upper_ascii.
Qed.

Lemma build_ascii (defaults : list text) (t : text) :
  is_ascii t = true -> build db1 defaults t = build db2 defaults t.
Proof.
  intros H. rewrite (build_unfold db1 _ _ H1), (build_unfold db2 _ _ H2).
  now rewrite (tokens_ascii t H).
Qed.

End AsciiAgree.

(** C6. For every defaults list and every raw input text, the builder
    returns the defaults followed by the comma-split, trimmed, upper-cased
    tokens of the input in order (none when the input is empty, empty
    tokens kept), deduplicated keeping first occurrences: so the result
    has no duplicate, holds exactly the symbols of that list, and [A,B]
    with "B, c ,A" gives [A, B, C] while "A,,B" keeps the empty token.
    Upper case and white space are those of Python's Unicode tables, of
    which only the stated properties are used. *)
Theorem build_keeps_first_occurrences (db : chardb) :
  unicode_db db ->
  (forall defaults t, build db defaults t = build_spec db defaults t)
  /\ (forall defaults t, NoDup (build db defaults t))
  /\ (forall defaults t x,
        In x (build db defaults t) <-> In x (defaults ++ tokens db t)%list)
  /\ build db [txt "A"; txt "B"] (txt "B, c ,A") = [txt "A"; txt "B"; txt "C"]
  /\ build db [] (txt "A,,B") = [txt "A"; txt ""; txt "B"]
  /\ build db [txt "A"; txt "B"] (txt "A,,B") = [txt "A"; txt "B"; txt ""].
Proof.
  intros Hdb.
  split; [intros; now apply build_unfold |].
  split; [intros; rewrite build_unfold by exact Hdb; apply dedup_seen_NoDup |].
  split.
  { intros. rewrite build_unfold, dedup_seen_In by exact Hdb. cbn [In]. tauto. }
  repeat split;
    rewrite (build_ascii db latin1 Hdb latin1_unicode) by reflexivity;
    vm_compute; reflexivity.
Qed.

Lemma build_keeps_first_occurrences_witness :
  build latin1 [txt "A"; txt "B"] (txt "B, c ,A") = [txt "A"; txt "B"; txt "C"]
  /\ build latin1 [] (txt "A,,B") = [txt "A"; txt ""; txt "B"].
Proof.
  destruct (build_keeps_first_occurrences latin1 latin1_unicode)
    as (_ & _ & _ & E1 & E2 & _).
  split; assumption.
Defined.

(** The builder on text that is not ASCII: a no-break space (U+00A0) is
    trimmed, so "aapl" followed by it is the default AAPL again; "é" is
    upper-cased to "É" and "ß" to "SS". *)
Example build_beyond_ascii :
  build latin1 [txt "AAPL"] (txt "aapl" ++ [160%N])%list = [txt "AAPL"]
  /\ build latin1 [] [233%N] = [[201%N]]
  /\ build latin1 [] [223%N; 8195%N] = [[83%N; 83%N]].
Proof. repeat split; vm_compute; reflexivity. Qed.

(** ** QuoteFetcher *)

Section FetchProps.
Context {W : Type} (yf : provider W).

(** The pre-market fetch on a snapshot that is a dict. *)
Lemma get_premarket_price_snapshot (sym : string) (w w' : W) (d : dict) :
  info yf sym w = (Ok (PyDict d), w') ->
  get_premarket_price yf sym w
  = (Ok (premarket_outcome sym (dict_get d "preMarketPrice")
           (dict_get d "regularMarketPrice") (dict_get d "previousClose")),
     w').
Proof.
  intros Hinfo.
  unfold get_premarket_price, try_except, bind, lift, ret, premarket_outcome,
    changes.
  rewrite Hinfo. cbn [call_get getitem lookup String.eqb Ascii.eqb Bool.eqb].
  set (p := dict_get d "preMarketPrice").
  set (r := dict_get d "regularMarketPrice").
  set (c := dict_get d "previousClose").
  destruct (truthy p) eqn:Hp; cbn [andb].
  - destruct (truthy c) eqn:Hc; [| reflexivity].
    destruct (sub p c) as [ch | e]; cbn [rbind]; [| reflexivity].
    cbn [setitem getitem lookup String.eqb Ascii.eqb Bool.eqb].
    destruct (truediv ch c) as [ratio | e]; cbn [rbind]; [| reflexivity].
    destruct (mul ratio (PyInt 100)) as [pct | e]; cbn [rbind]; reflexivity.
  - rewrite Hp. reflexivity.
Qed.

(** Any failure of the snapshot query gives the all-null record. *)
Lemma get_premarket_price_failure (sym : string) (w w' : W) (r : result pyval) :
  info yf sym w = (r, w') ->
  (forall d, r <> Ok (PyDict d)) ->
  get_premarket_price yf sym w
  = (Ok (premarket_record sym PyNone PyNone PyNone PyNone PyNone), w').
Proof.
  intros Hinfo Hnd.
  unfold get_premarket_price, try_except, bind, lift, ret.
  rewrite Hinfo.
  destruct r as [[| n | x | s | d] | e]; cbn [call_get]; try reflexivity.
  now destruct (Hnd d).
Qed.

Lemma premarket_outcome_record (sym : string) (p r c : pyval) :
  record_of sym (premarket_outcome sym p r c).
Proof.
  unfold premarket_outcome.
  destruct (truthy p && truthy c); [destruct (changes p c) as [[ch pct] | e] |];
    eexists; split; reflexivity.
Qed.

(** The pre-market fetch never raises and always returns a record that
    carries the symbol. *)
Lemma get_premarket_price_total (sym : string) (w : W) :
  exists v, fst (get_premarket_price yf sym w) = Ok v /\ record_of sym v.
Proof.
  destruct (info yf sym w) as [r w'] eqn:Hinfo.
  destruct r as [[| n | x | s | d] | e].
  5: { rewrite (get_premarket_price_snapshot _ _ _ _ Hinfo). cbn [fst].
       eexists; split; [reflexivity | apply premarket_outcome_record]. }
  all: rewrite (get_premarket_price_failure _ _ _ _ Hinfo) by discriminate;
    cbn [fst]; eexists; split; [reflexivity |];
    eexists; split; reflexivity.
Qed.

Lemma iloc_neg_last {A} (l : list A) (a : A) :
  iloc_neg (l ++ [a]) 1 = Ok a.
Proof.
  unfold iloc_neg. rewrite length_app. cbn [List.length].
  replace (Nat.leb 1 (List.length l + 1)) with true
    by (symmetry; apply Nat.leb_le; lia).
  cbn [andb Nat.leb].
  replace (List.length l + 1 - 1)%nat with (List.length l) by lia.
  rewrite nth_error_app2 by lia. now rewrite Nat.sub_diag.
Qed.

Lemma iloc_neg_prev {A} (l : list A) (a b : A) :
  iloc_neg (l ++ [a; b]) 2 = Ok a.
Proof.
  unfold iloc_neg. rewrite length_app. cbn [List.length].
  replace (Nat.leb 2 (List.length l + 2)) with true
    by (symmetry; apply Nat.leb_le; lia).
  cbn [andb Nat.leb].
  replace (List.length l + 2 - 2)%nat with (List.length l) by lia.
  rewrite nth_error_app2 by lia. now rewrite Nat.sub_diag.
Qed.

(** The regular-market fetch on a failed query. *)
Lemma get_market_price_failure (sym : string) (w w' : W) (e : exn) :
  history yf sym w = (Raise e, w') ->
  get_market_price yf sym w
  = (Ok (market_record sym PyNone PyNone PyNone PyNone), w').
Proof.
  intros H. unfold get_market_price, try_except, bind. rewrite H. reflexivity.
Qed.

(** The regular-market fetch on a single bar. *)
Lemma get_market_price_one_bar (sym : string) (w w' : W) (b : bar) :
  history yf sym w = (Ok [b], w') ->
  get_market_price yf sym w
  = (Ok (market_record sym (PyFloat (Close b))
           (PyFloat (fsub (Close b) (Close b)))
           (PyFloat (fmul (fdiv (fsub (Close b) (Close b)) (Close b)) (Z2F 100)))
           (PyInt (Volume b))),
     w').
Proof.
  intros H. unfold get_market_price, try_except, bind, lift, ret.
  rewrite H. reflexivity.
Qed.

(** The regular-market fetch on two bars or more. *)
Lemma get_market_price_bars (sym : string) (w w' : W) (l : list bar)
  (b1 b2 : bar) :
  history yf sym w = (Ok (l ++ [b1; b2])%list, w') ->
  get_market_price yf sym w
  = (Ok (market_record sym (PyFloat (Close b2))
           (PyFloat (fsub (Close b2) (Close b1)))
           (PyFloat (fmul (fdiv (fsub (Close b2) (Close b1)) (Close b1))
                          (Z2F 100)))
           (PyInt (Volume b2))),
     w').
Proof.
  intros H. unfold get_market_price, try_except, bind, lift, ret.
  rewrite H.
  assert (Hlen : List.length (l ++ [b1; b2])%list = S (S (List.length l))).
  { rewrite length_app. cbn. lia. }
  rewrite Hlen. cbn [Nat.eqb negb Nat.ltb Nat.leb].
  rewrite !map_app. cbn [map].
  rewrite iloc_neg_prev.
  change [Close b1; Close b2] with ([Close b1] ++ [Close b2])%list.
  change [Volume b1; Volume b2] with ([Volume b1] ++ [Volume b2])%list.
  rewrite !app_assoc, !iloc_neg_last. reflexivity.
Qed.

(** The regular-market fetch on an empty history. *)
Lemma get_market_price_empty (sym : string) (w w' : W) :
  history yf sym w = (Ok [], w') ->
  get_market_price yf sym w = (Ok PyNone, w').
Proof.
  intros H. unfold get_market_price, try_except, bind, ret. rewrite H.
  reflexivity.
Qed.

(** The regular-market fetch never raises; it returns [None] on an empty
    history and a record that carries the symbol otherwise. *)
Lemma get_market_price_total (sym : string) (w : W) :
  exists v, fst (get_market_price yf sym w) = Ok v
            /\ (v = PyNone \/ record_of sym v).
Proof.
  destruct (history yf sym w) as [r w'] eqn:H.
  destruct r as [hist | e].
  - destruct hist as [| b0 rest].
    + rewrite (get_market_price_empty _ _ _ H).
      eexists; split; [reflexivity | now left].
    + destruct (@exists_last _ (b0 :: rest)) as (l1 & b2 & E1); [discriminate |].
      rewrite E1 in H.
      destruct l1 as [| x l1'].
      * cbn [app] in H. rewrite (get_market_price_one_bar _ _ _ _ H).
        eexists; split; [reflexivity |]. right. eexists; split; reflexivity.
      * destruct (@exists_last _ (x :: l1')) as (l0 & b1 & E0); [discriminate |].
        rewrite E0, <- app_assoc in H. cbn [app] in H.
        rewrite (get_market_price_bars _ _ _ _ _ _ H).
        eexists; split; [reflexivity |]. right. eexists; split; reflexivity.
  - rewrite (get_market_price_failure _ _ _ _ H).
    eexists; split; [reflexivity |]. right. eexists; split; reflexivity.
Qed.

End FetchProps.

Import Fixtures.

Lemma float_of_int_100 : float_of_int 100 = Ok (Z2F 100).
Proof. vm_compute. reflexivity. Qed.

(** The outcome of the pre-market fetch on two floats. *)
Lemma premarket_outcome_floats (sym : string) (r : pyval) (x y : float) :
  premarket_outcome sym (PyFloat x) r (PyFloat y)
  = if negb (is_zero x) && negb (is_zero y)
    then premarket_record sym (PyFloat x) r (PyFloat y)
           (PyFloat (fsub x y))
           (PyFloat (fmul (fdiv (fsub x y) y) (Z2F 100)))
    else premarket_record sym (PyFloat x) r (PyFloat y) PyNone PyNone.
Proof.
  unfold premarket_outcome. cbn [truthy].
  destruct (is_zero x) eqn:Hx; cbn [negb andb]; [reflexivity |].
  destruct (is_zero y) eqn:Hy; cbn [negb andb]; [reflexivity |].
  unfold changes, sub, truediv, mul.
  cbn [is_number andb as_float rbind]. rewrite Hy.
  cbn [is_number andb as_float rbind]. rewrite float_of_int_100.
  reflexivity.
Qed.

Lemma premarket_outcome_no_close (sym : string) (p r : pyval) :
  premarket_outcome sym p r PyNone
  = premarket_record sym p r PyNone PyNone PyNone.
Proof.
  unfold premarket_outcome. cbn [truthy]. now rewrite andb_false_r.
Qed.

(** C1, where the code departs from it.  When the provider returns no
    data in regular-market mode, the fetch returns [None]: no record, and
    no symbol field. *)
Theorem get_market_price_no_data {W : Type} (yf : provider W)
  (sym : string) (w w' : W) :
  history yf sym w = (Ok [], w') ->
  get_market_price yf sym w = (Ok PyNone, w')
  /\ ~ record_of sym PyNone.
Proof.
  intros H. split.
  - now apply get_market_price_empty.
  - intros (d & Hd & _). discriminate Hd.
Qed.

Lemma get_market_price_no_data_witness :
  history no_data "ZZZZ" 0%nat = (Ok [], 1%nat) /\
  get_market_price no_data "ZZZZ" 0%nat = (Ok PyNone, 1%nat).
Proof.
  assert (H : history no_data "ZZZZ" 0%nat = (Ok [], 1%nat)) by reflexivity.
  split; [exact H |].
  exact (proj1 (get_market_price_no_data no_data "ZZZZ" 0%nat 1%nat H)).
Defined.

Lemma changes_floats (x y : float) :
  changes (PyFloat x) (PyFloat y)
  = if is_zero y then Raise ZeroDivisionError
    else Ok (PyFloat (fsub x y),
             PyFloat (fmul (fdiv (fsub x y) y) (Z2F 100))).
Proof.
  unfold changes, sub, truediv, mul.
  cbn [is_number andb as_float rbind].
  destruct (is_zero y); [reflexivity |].
  cbn [is_number andb as_float rbind]. rewrite float_of_int_100.
  reflexivity.
Qed.

Lemma changes_ints (a b : Z) :
  changes (PyInt a) (PyInt b)
  = rbind (int_truediv (a - b) b) (fun q =>
    Ok (PyInt (a - b), PyFloat (fmul q (Z2F 100)))).
Proof.
  unfold changes, sub, truediv. cbn [rbind].
  destruct (int_truediv (a - b) b) as [q | e]; [| reflexivity].
  cbn [rbind]. unfold mul. cbn [is_number andb as_float rbind].
  rewrite float_of_int_100. reflexivity.
Qed.

Lemma changes_int_float (a : Z) (y : float) :
  changes (PyInt a) (PyFloat y)
  = rbind (float_of_int a) (fun x => changes (PyFloat x) (PyFloat y)).
Proof.
  destruct (float_of_int a) as [x | e] eqn:E; cbn [rbind].
  - rewrite changes_floats. unfold changes, sub, truediv, mul.
    cbn [is_number andb as_float rbind]. rewrite E. cbn [rbind].
    destruct (is_zero y); [reflexivity |].
    cbn [is_number andb as_float rbind]. rewrite float_of_int_100.
    reflexivity.
  - unfold changes, sub. cbn [is_number andb as_float rbind].
    rewrite E. reflexivity.
Qed.

Lemma changes_float_int (x : float) (b : Z) :
  changes (PyFloat x) (PyInt b)
  = rbind (float_of_int b) (fun y => changes (PyFloat x) (PyFloat y)).
Proof.
  destruct (float_of_int b) as [y | e] eqn:E; cbn [rbind].
  - rewrite changes_floats. unfold changes, sub, truediv, mul.
    cbn [is_number andb as_float rbind]. rewrite E. cbn [rbind].
    destruct (is_zero y); [reflexivity |].
    cbn [is_number andb as_float rbind]. rewrite float_of_int_100.
    reflexivity.
  - unfold changes, sub. cbn [is_number andb as_float rbind].
    rewrite E. reflexivity.
Qed.

Lemma changes_not_numbers (p c : pyval) :
  is_number p && is_number c = false -> changes p c = Raise TypeError.
Proof.
  intros H. unfold changes, sub.
  destruct p as [| a | x | s | d]; destruct c as [| b | y | t | d'];
    try discriminate H; reflexivity.
Qed.

(** C3, as the code has it.  On every snapshot the pre-market record has
    Change = price - previous close and Change% = Change / previous close
    * 100 exactly when both values are truthy (present, and neither zero
    nor empty) and computing them raises no error.  When either is absent
    or zero, Change and Change% are null and the other fields are kept.
    When both are truthy and the computation raises (a value that is not
    a number, an int too large for a float), every field except the
    symbol is null. *)
Theorem premarket_changes {W : Type} (yf : provider W)
  (sym : string) (w w' : W) (d : dict) :
  info yf sym w = (Ok (PyDict d), w') ->
  get_premarket_price yf sym w
  = (Ok (premarket_outcome sym (dict_get d "preMarketPrice")
           (dict_get d "regularMarketPrice") (dict_get d "previousClose")),
     w')
  /\ (forall p r c,
        truthy p && truthy c = false ->
        premarket_outcome sym p r c
        = premarket_record sym p r c PyNone PyNone)
  /\ (forall p r c ch pct,
        truthy p && truthy c = true ->
        changes p c = Ok (ch, pct) ->
        premarket_outcome sym p r c = premarket_record sym p r c ch pct)
  /\ (forall p r c e,
        truthy p && truthy c = true ->
        changes p c = Raise e ->
        premarket_outcome sym p r c
        = premarket_record sym PyNone PyNone PyNone PyNone PyNone)
  /\ (truthy PyNone = false
      /\ (forall n, truthy (PyInt n) = negb (n =? 0))
      /\ (forall x, truthy (PyFloat x) = negb (is_zero x))
      /\ (forall s, truthy (PyStr s) = negb (String.eqb s "")))
  /\ (forall x y,
        is_zero y = false ->
        changes (PyFloat x) (PyFloat y)
        = Ok (PyFloat (fsub x y),
              PyFloat (fmul (fdiv (fsub x y) y) (Z2F 100))))
  /\ (forall a b,
        changes (PyInt a) (PyInt b)
        = rbind (int_truediv (a - b) b) (fun q =>
          Ok (PyInt (a - b), PyFloat (fmul q (Z2F 100)))))
  /\ (forall a y,
        changes (PyInt a) (PyFloat y)
        = rbind (float_of_int a) (fun x => changes (PyFloat x) (PyFloat y)))
  /\ (forall x b,
        changes (PyFloat x) (PyInt b)
        = rbind (float_of_int b) (fun y => changes (PyFloat x) (PyFloat y)))
  /\ (forall p c,
        is_number p && is_number c = false -> changes p c = Raise TypeError)
  /\ (forall r x y,
        premarket_outcome sym (PyFloat x) r (PyFloat y)
        = if negb (is_zero x) && negb (is_zero y)
          then premarket_record sym (PyFloat x) r (PyFloat y)
                 (PyFloat (fsub x y))
                 (PyFloat (fmul (fdiv (fsub x y) y) (Z2F 100)))
          else premarket_record sym (PyFloat x) r (PyFloat y) PyNone PyNone)
  /\ (forall r c,
        premarket_outcome sym PyNone r c
        = premarket_record sym PyNone r c PyNone PyNone)
  /\ (forall p r,
        premarket_outcome sym p r PyNone
        = premarket_record sym p r PyNone PyNone PyNone)
  /\ (forall r,
        premarket_outcome sym (PyInt (2 ^ 1024)) r (PyFloat (Z2F 10))
        = premarket_record sym PyNone PyNone PyNone PyNone PyNone)
  /\ (forall r,
        premarket_outcome sym (PyInt 12) r (PyInt 10)
        = premarket_record sym (PyInt 12) r (PyInt 10) (PyInt 2)
            (PyFloat (Z2F 20))).
Proof.
  intros H. split; [now apply get_premarket_price_snapshot |].
  split; [intros p r c Ht; unfold premarket_outcome; now rewrite Ht |].
  split.
  { intros p r c ch pct Ht Hc. unfold premarket_outcome.
    now rewrite Ht, Hc. }
  split.
  { intros p r c e Ht Hc. unfold premarket_outcome. now rewrite Ht, Hc. }
  split; [repeat split |].
  split; [intros x y Hy; now rewrite changes_floats, Hy |].
  split; [exact changes_ints |].
  split; [exact changes_int_float |].
  split; [exact changes_float_int |].
  split; [exact changes_not_numbers |].
  split; [intros; apply premarket_outcome_floats |].
  split; [reflexivity |].
  split; [intros; apply premarket_outcome_no_close |].
  split; intros r; vm_compute; reflexivity.
Qed.

Lemma premarket_changes_witness :
  info (snapshot_provider sample_snapshot) "AAPL" 0%nat
  = (Ok (PyDict sample_snapshot), 1%nat) /\
  get_premarket_price (snapshot_provider sample_snapshot) "AAPL" 0%nat
  = (Ok (premarket_record "AAPL" (PyFloat (dec 1515 1)) (PyFloat (dec 1502 1))
           (PyFloat (Z2F 150)) (PyFloat (dec 15 1)) (PyFloat (Z2F 1))),
     1%nat).
Proof.
  assert (H : info (snapshot_provider sample_snapshot) "AAPL" 0%nat
              = (Ok (PyDict sample_snapshot), 1%nat)) by reflexivity.
  split; [exact H |].
  rewrite (proj1 (premarket_changes (snapshot_provider sample_snapshot)
                    "AAPL" 0%nat 1%nat sample_snapshot H)).
  vm_compute. reflexivity.
Defined.

(** C3, as the claim words it, fails: a snapshot in which both the
    pre-market price (0.0) and the previous close (10.0) are present gets
    null Change and Change%, not -10.0 and -100.0. *)
Lemma premarket_zero_price_counterexample :
  lookup zero_price_snapshot "preMarketPrice" = Some (PyFloat (S754_zero false))
  /\ lookup zero_price_snapshot "previousClose" = Some (PyFloat (Z2F 10))
  /\ changes (PyFloat (S754_zero false)) (PyFloat (Z2F 10))
     = Ok (PyFloat (Z2F (-10)), PyFloat (Z2F (-100)))
  /\ get_premarket_price (snapshot_provider zero_price_snapshot) "X" 0%nat
     = (Ok (premarket_record "X" (PyFloat (S754_zero false))
              (PyFloat (dec 105 1)) (PyFloat (Z2F 10)) PyNone PyNone),
        1%nat).
Proof. repeat split; vm_compute; reflexivity. Qed.

(** C7, as the code has it.  In regular-market mode, on exactly one bar
    whose close is a finite number other than zero, the previous close is
    that close; Change is 0.0 and Change% is a zero (0.0, or -0.0 when the
    close is negative), both equal to 0. *)
Theorem single_bar_no_change {W : Type} (yf : provider W)
  (sym : string) (w w' : W) (b : bar) (s : bool) (m : positive) (e : Z) :
  history yf sym w = (Ok [b], w') ->
  Close b = S754_finite s m e ->
  get_market_price yf sym w
  = (Ok (market_record sym (PyFloat (Close b)) (PyFloat (S754_zero false))
           (PyFloat (S754_zero s)) (PyInt (Volume b))),
     w')
  /\ feq (S754_zero false) (Z2F 0) = true
  /\ feq (S754_zero s) (Z2F 0) = true.
Proof.
  intros H Hc. split; [| split; [reflexivity | destruct s; reflexivity]].
  rewrite (get_market_price_one_bar yf _ _ _ _ H), Hc.
  assert (E1 : fsub (S754_finite s m e) (S754_finite s m e) = S754_zero false).
  { unfold fsub, SFsub. rewrite Z.sub_diag. reflexivity. }
  rewrite E1.
  assert (E2 : fmul (fdiv (S754_zero false) (S754_finite s m e)) (Z2F 100)
               = S754_zero s).
  { destruct s; reflexivity. }
  rewrite E2. reflexivity.
Qed.

Lemma single_bar_no_change_witness :
  history (bars_provider [bar_150]) "AAPL" 0%nat = (Ok [bar_150], 1%nat) /\
  get_market_price (bars_provider [bar_150]) "AAPL" 0%nat
  = (Ok (market_record "AAPL" (PyFloat (Z2F 150)) (PyFloat (S754_zero false))
           (PyFloat (S754_zero false)) (PyInt 1234567)),
     1%nat).
Proof.
  assert (H : history (bars_provider [bar_150]) "AAPL" 0%nat
              = (Ok [bar_150], 1%nat)) by reflexivity.
  split; [exact H |].
  exact (proj1 (single_bar_no_change (bars_provider [bar_150]) "AAPL"
                  0%nat 1%nat bar_150 false 5277655813324800 (-45) H
                  eq_refl)).
Defined.

(** C7, as the claim words it, fails: on a single bar whose close is 0.0
    the Change% is NaN, which is not equal to 0.0. *)
Lemma single_bar_zero_close_counterexample :
  history (bars_provider [bar_zero]) "X" 0%nat = (Ok [bar_zero], 1%nat)
  /\ get_market_price (bars_provider [bar_zero]) "X" 0%nat
     = (Ok (market_record "X" (PyFloat (S754_zero false))
              (PyFloat (S754_zero false)) (PyFloat S754_nan) (PyInt 1000)),
        1%nat)
  /\ feq S754_nan (Z2F 0) = false.
Proof. repeat split; vm_compute; reflexivity. Qed.

(** ** The fetch loop *)

Section LoopProps.
Context {W : Type} (yf : provider W).

Lemma fetch_all_unfold (mt : string) (tickers : list string) :
  fetch_all yf mt tickers = for_each tickers (loop_body yf mt) [].
Proof. reflexivity. Qed.

(** One fetch never raises: it yields [None] or a record of the symbol. *)
Lemma fetch_one_total (mt t : string) (w : W) :
  exists v, fst (fetch_one yf mt t w) = Ok v /\ (v = PyNone \/ record_of t v).
Proof.
  unfold fetch_one. destruct (String.eqb mt "pre_market").
  - destruct (get_premarket_price_total yf t w) as (v & Hv & Hr).
    exists v. split; [exact Hv | now right].
  - apply get_market_price_total.
Qed.

Lemma for_each_app {X S} (l1 l2 : list X) (body : X -> S -> M W S)
  (s : S) (w : W) :
  for_each (l1 ++ l2) body s w
  = match for_each l1 body s w with
    | (Ok s', w') => for_each l2 body s' w'
    | (Raise e, w') => (Raise e, w')
    end.
Proof.
  revert s w. induction l1 as [| x r IH]; intros s w; cbn [app for_each].
  - reflexivity.
  - unfold bind. destruct (body x s w) as [[s' | e] w']; [apply IH |].
    reflexivity.
Qed.

(** The loop appends one value per ticker, in order, to its list; the
    values and the final provider state do not depend on the list. *)
Lemma loop_appends (mt : string) (tickers : list string) (w : W) :
  exists vs w',
    (forall acc,
       for_each tickers (loop_body yf mt) acc w = (Ok (acc ++ vs)%list, w'))
    /\ Forall2 (fun t v => v = PyNone \/ record_of t v) tickers vs.
Proof.
  revert w. induction tickers as [| t r IH]; intros w.
  - exists [], w. split; [| constructor].
    intros acc. cbn [for_each]. unfold ret. now rewrite app_nil_r.
  - destruct (fetch_one_total mt t w) as (v & Hv & Hr).
    destruct (fetch_one yf mt t w) as [res w1] eqn:E1. cbn [fst] in Hv. subst res.
    destruct (IH w1) as (vs & w' & Hloop & Hall).
    exists (v :: vs), w'. split; [| now constructor].
    intros acc. cbn [for_each]. unfold bind at 1. unfold loop_body at 1.
    unfold bind at 1. rewrite E1. unfold ret at 1.
    rewrite Hloop, <- app_assoc. reflexivity.
Qed.

End LoopProps.

(** ** The batch, result by result *)

Section BatchProps.
Context {W : Type} (yf : provider W).

Lemma get_market_price_outcome (sym : string) (w : W) :
  get_market_price yf sym w
  = (Ok (market_outcome sym (fst (history yf sym w))),
     snd (history yf sym w)).
Proof.
  destruct (history yf sym w) as [[hist | e] w'] eqn:H; cbn [fst snd].
  2:{ now rewrite (get_market_price_failure yf _ _ _ _ H). }
  destruct hist as [| b0 rest].
  { now rewrite (get_market_price_empty yf _ _ _ H). }
  destruct (@exists_last _ (b0 :: rest)) as (l1 & b2 & E1); [discriminate |].
  rewrite E1 in H |- *.
  destruct l1 as [| x l1'].
  - cbn [app] in H. rewrite (get_market_price_one_bar yf _ _ _ _ H).
    reflexivity.
  - destruct (@exists_last _ (x :: l1')) as (l0 & b1 & E0); [discriminate |].
    rewrite E0 in H |- *. rewrite <- app_assoc in H. cbn [app] in H.
    rewrite (get_market_price_bars yf _ _ _ _ _ _ H).
    unfold market_outcome. rewrite !rev_app_distr. reflexivity.
Qed.

Lemma get_premarket_price_outcome (sym : string) (w : W) :
  get_premarket_price yf sym w
  = (Ok (snapshot_outcome sym (fst (info yf sym w))), snd (info yf sym w)).
Proof.
  destruct (info yf sym w) as [r w'] eqn:H; cbn [fst snd].
  destruct r as [[| n | x | s | d] | e].
  5:{ now rewrite (get_premarket_price_snapshot yf _ _ _ _ H). }
  all: now rewrite (get_premarket_price_failure yf _ _ _ _ H) by discriminate.
Qed.

(** One pass of the loop body yields the outcome of the provider's
    answer. *)
Lemma fetch_one_outcome (mt t : string) (w : W) :
  fetch_one yf mt t w
  = (Ok (fst (outcome yf mt t w)), snd (outcome yf mt t w)).
Proof.
  unfold fetch_one, outcome. destruct (String.eqb mt "pre_market").
  - apply get_premarket_price_outcome.
  - apply get_market_price_outcome.
Qed.

Lemma loop_batch (mt : string) (tickers : list string) (acc : list pyval)
  (w : W) :
  for_each tickers (loop_body yf mt) acc w
  = (Ok (acc ++ fst (batch yf mt tickers w))%list,
     snd (batch yf mt tickers w)).
Proof.
  revert acc w. induction tickers as [| t r IH]; intros acc w.
  - cbn [for_each batch fst snd]. unfold ret. now rewrite app_nil_r.
  - cbn [for_each batch]. unfold bind at 1. unfold loop_body at 1.
    unfold bind at 1. rewrite fetch_one_outcome. unfold ret at 1.
    rewrite IH.
    destruct (outcome yf mt t w) as [v w1]. cbn [fst snd].
    destruct (batch yf mt r w1) as [vs w2]. cbn [fst snd].
    now rewrite <- app_assoc.
Qed.

Lemma batch_app (mt : string) (l1 l2 : list string) (w : W) :
  fst (batch yf mt (l1 ++ l2) w)
  = (fst (batch yf mt l1 w)
     ++ fst (batch yf mt l2 (snd (batch yf mt l1 w))))%list.
Proof.
  revert w. induction l1 as [| t r IH]; intros w; [reflexivity |].
  cbn [app batch]. destruct (outcome yf mt t w) as [v w1].
  specialize (IH w1).
  destruct (batch yf mt (r ++ l2) w1) as [vs w2].
  destruct (batch yf mt r w1) as [vs1 w3]. cbn [fst snd] in *.
  now rewrite IH.
Qed.

Lemma batch_length (mt : string) (tickers : list string) (w : W) :
  List.length (fst (batch yf mt tickers w)) = List.length tickers.
Proof.
  revert w. induction tickers as [| t r IH]; intros w; [reflexivity |].
  cbn [batch]. destruct (outcome yf mt t w) as [v w1].
  specialize (IH w1). destruct (batch yf mt r w1) as [vs w2].
  cbn [fst List.length] in *. now rewrite IH.
Qed.

Lemma market_outcome_cases (sym : string) (answer : result (list bar)) :
  (market_outcome sym answer = PyNone /\ answer = Ok [])
  \/ (answer <> Ok []
      /\ exists p ch pct vol,
           market_outcome sym answer = market_record sym p ch pct vol).
Proof.
  destruct answer as [hist | e].
  - destruct hist as [| b0 rest]; [now left |]. right.
    split; [discriminate |]. unfold market_outcome.
    destruct (rev (b0 :: rest)) as [| b2 older] eqn:E.
    + apply (f_equal (@List.length _)) in E. rewrite length_rev in E.
      discriminate E.
    + do 4 eexists; reflexivity.
  - right. split; [discriminate |]. do 4 eexists; reflexivity.
Qed.

Lemma snapshot_outcome_record (sym : string) (answer : result pyval) :
  exists p r c ch pct,
    snapshot_outcome sym answer = premarket_record sym p r c ch pct.
Proof.
  assert (N : exists p r c ch pct,
            premarket_record sym PyNone PyNone PyNone PyNone PyNone
            = premarket_record sym p r c ch pct)
    by (do 5 eexists; reflexivity).
  destruct answer as [[| n | x | s | d] | e]; cbn [snapshot_outcome];
    try exact N.
  unfold premarket_outcome.
  destruct (truthy _ && truthy _);
    [destruct (changes _ _) as [[ch pct] | e] |];
    do 5 eexists; reflexivity.
Qed.

End BatchProps.

(** C8. For every ticker list and every provider (so, every pattern of
    successes and failures), the fetch loop does not raise and produces
    exactly one result per requested symbol, in the order of the list.
    The result at each position is made from the answer that the
    provider gives for the symbol at that position, in the state left by
    the queries before it, whatever the other symbols got: in pre-market
    mode it is a record of that symbol, all null when the query failed;
    in regular-market mode it is [None] when that answer is an empty
    history and a record of that symbol otherwise, all null when the
    query raised. *)
Theorem fetch_all_one_result_per_symbol {W : Type} (yf : provider W)
  (mt : string) (tickers : list string) (w : W) :
  fetch_all yf mt tickers w
  = (Ok (fst (batch yf mt tickers w)), snd (batch yf mt tickers w))
  /\ List.length (fst (batch yf mt tickers w)) = List.length tickers
  /\ (forall l1 t l2,
        tickers = (l1 ++ t :: l2)%list ->
        let w1 := snd (batch yf mt l1 w) in
        nth (List.length l1) (fst (batch yf mt tickers w)) PyNone
        = (if String.eqb mt "pre_market"
           then snapshot_outcome t (fst (info yf t w1))
           else market_outcome t (fst (history yf t w1)))
        /\ snd (batch yf mt (l1 ++ [t]) w)
           = (if String.eqb mt "pre_market"
              then snd (info yf t w1) else snd (history yf t w1)))
  /\ (forall t answer,
        exists p r c ch pct,
          snapshot_outcome t answer = premarket_record t p r c ch pct)
  /\ (forall t e,
        snapshot_outcome t (Raise e)
        = premarket_record t PyNone PyNone PyNone PyNone PyNone
        /\ market_outcome t (Raise e)
           = market_record t PyNone PyNone PyNone PyNone)
  /\ (forall t answer,
        (market_outcome t answer = PyNone /\ answer = Ok [])
        \/ (answer <> Ok []
            /\ exists p ch pct vol,
                 market_outcome t answer = market_record t p ch pct vol)).
Proof.
  split.
  { rewrite fetch_all_unfold, loop_batch. reflexivity. }
  split; [apply batch_length |].
  split.
  { intros l1 t l2 -> w1. split.
    - rewrite batch_app.
      rewrite app_nth2 by (rewrite batch_length; lia).
      rewrite batch_length, Nat.sub_diag. fold w1.
      cbn [batch]. unfold outcome.
      destruct (String.eqb mt "pre_market");
        destruct (batch yf mt l2 _); reflexivity.
    - clear l2. subst w1. revert w.
      induction l1 as [| x r IH]; intros w.
      + cbn [app batch fst snd]. unfold outcome.
        destruct (String.eqb mt "pre_market"); reflexivity.
      + cbn [app batch]. destruct (outcome yf mt x w) as [v w0].
        specialize (IH w0).
        destruct (batch yf mt (r ++ [t]) w0) as [vs w2].
        destruct (batch yf mt r w0) as [vs' w3]. cbn [fst snd] in *.
        exact IH. }
  split; [intros; apply snapshot_outcome_record |].
  split; [intros; split; reflexivity |].
  intros; apply market_outcome_cases.
Qed.

(** ** ReportFormatter *)

Lemma round_half_even_nearest (num den : Z) :
  0 < den ->
  Z.abs (2 * num - 2 * round_half_even num den * den) <= den.
Proof.
  intros Hd. unfold round_half_even.
  pose proof (Z.div_mod num den ltac:(lia)) as Hdm.
  pose proof (Z.mod_pos_bound num den Hd) as Hr.
  set (q := num / den) in *. set (r := num mod den) in *.
  destruct (2 * r ?= den) eqn:C.
  - apply Z.compare_eq in C. destruct (Z.even q); nia.
  - rewrite Z.compare_lt_iff in C. nia.
  - rewrite Z.compare_gt_iff in C. nia.
Qed.


(** The digits printed for a finite float are those of the integer
    nearest to its magnitude times [10^p]. *)
Lemma scaled_nearest (p : nat) (m : positive) (e : Z) :
  Z.abs (2 * (numerator m e * 10 ^ Z.of_nat p)
         - 2 * scaled p m e * denominator e) <= denominator e.
Proof.
  destruct e as [| k | k]; cbn [scaled numerator denominator].
  - lia.
  - lia.
  - apply round_half_even_nearest. apply Z.pow_pos_nonneg; lia.
Qed.





Lemma digits_all_digits (d : Decimal.uint) :
  all_digits (NilEmpty.string_of_uint d) = true.
Proof. induction d; cbn; auto. Qed.

Lemma decimal_all_digits (n : Z) : all_digits (decimal n) = true.
Proof.
  unfold decimal, NilZero.string_of_uint.
  destruct (N.to_uint (Z.to_N n)) eqn:E; try reflexivity;
    rewrite <- E; apply digits_all_digits.
Qed.


(** C2, as the claim words it, fails: -1.5 is rendered "$-1.50" and 1.23
    is rendered "$+1.23", with the sign after the dollar sign. *)
Lemma fmt_change_sign_counterexample :
  fmt_change (PyFloat (dec (-15) 1)) = Ok "$-1.50"
  /\ fmt_change (PyFloat (dec (-15) 1)) <> Ok "-$1.50"
  /\ fmt_change (PyFloat (dec 123 2)) <> Ok "+$1.23".
Proof.
  split; [vm_compute; reflexivity |].
  split; vm_compute; discriminate.
Qed.

Lemma append_assoc (s t u : string) : (s ++ t) ++ u = s ++ (t ++ u).
Proof. induction s as [| c r IH]; cbn; [reflexivity | now rewrite IH]. Qed.

Lemma fmt_change_pct_finite (s : bool) (m : positive) (e : Z) :
  fmt_change_pct (PyFloat (S754_finite s m e))
  = Ok ((if s then "-" else "+") ++ fixed 2 (scaled 2 m e) ++ "%").
Proof.
  unfold fmt_change_pct, format, format_float.
  cbn [is_number rbind]. f_equal.
  change (digits_body plus_f2 (scaled (precision plus_f2) m e))
    with (fixed 2 (scaled 2 m e)).
  rewrite append_assoc. destruct s; reflexivity.
Qed.


Lemma digits2_size (p : positive) : digits2_pos p = Pos.size p.
Proof. induction p; cbn; congruence. Qed.

Lemma digits2_bound (p : positive) :
  Z.pos p < 2 ^ 53 -> Z.pos (digits2_pos p) <= 53.
Proof.
  intros H. rewrite digits2_size.
  pose proof (Pos.size_le p) as Hs.
  apply Pos2Z.pos_le_pos in Hs. rewrite Pos2Z.inj_pow in Hs.
  change (Z.pos p~0) with (2 * Z.pos p) in Hs.
  assert (Hlt : 2 ^ Z.pos (Pos.size p) < 2 ^ 54).
  { change (2 ^ 54) with (2 * 2 ^ 53). lia. }
  apply Z.pow_lt_mono_r_iff in Hlt; lia.
Qed.

Lemma digits2_shift (k p : positive) :
  digits2_pos (Pos.iter xO p k) = (digits2_pos p + k)%positive.
Proof.
  induction k as [| k IH] using Pos.peano_ind.
  - cbn. lia.
  - rewrite Pos.iter_succ. cbn [digits2_pos]. rewrite IH. lia.
Qed.

Lemma binary_round_aux_exact (s : bool) (mz : positive) (ez : Z) :
  digits2_pos mz = 53%positive -> -1074 <= ez <= 971 ->
  binary_round_aux prec emax s (Z.pos mz) ez loc_Exact = S754_finite s mz ez.
Proof.
  intros Hd He. unfold binary_round_aux, shr_fexp. cbn [Zdigits2].
  rewrite Hd.
  assert (E : fexp prec emax (53 + ez) - ez = 0).
  { unfold fexp, emin, prec, emax. lia. }
  rewrite E. cbn [shr shr_record_of_loc shr_m loc_of_shr_record round_nearest_even Zdigits2].
  rewrite Hd, E. cbn [shr shr_m shr_record_of_loc].
  replace (ez <=? emax - prec) with true; [reflexivity |].
  symmetry. apply Z.leb_le. unfold emax, prec. lia.
Qed.

(** The double of a small integer, and the digits printed for it. *)
Lemma binary_round_small (s : bool) (p : positive) :
  Z.pos p < 2 ^ 53 ->
  exists m e,
    binary_round prec emax s p 0 = S754_finite s m e
    /\ forall q, scaled q m e = Z.pos p * 10 ^ Z.of_nat q.
Proof.
  intros Hp. pose proof (digits2_bound p Hp) as Hd.
  unfold binary_round.
  assert (Ef : fexp prec emax (Z.pos (digits2_pos p) + 0)
               = Z.pos (digits2_pos p) - 53).
  { unfold fexp, emin, prec, emax. lia. }
  rewrite Ef. unfold shl_align.
  destruct (Z.pos (digits2_pos p) - 53 - 0) as [| k | k] eqn:Ek; try lia.
  - exists p, 0. split.
    + apply binary_round_aux_exact; lia.
    + intros q. cbn [scaled]. lia.
  - exists (Pos.iter xO p k), (Z.pos (digits2_pos p) - 53). split.
    + apply binary_round_aux_exact; [| lia].
      rewrite digits2_shift. lia.
    + intros q.
      replace (Z.pos (digits2_pos p) - 53) with (Z.neg k) by lia.
      cbn [scaled].
      change (Pos.iter xO p k) with (shift_pos k p).
      rewrite shift_pos_correct, Z.pow_pos_fold.
      assert (HD : 0 < 2 ^ Z.pos k) by (apply Z.pow_pos_nonneg; lia).
      unfold round_half_even.
      replace (2 ^ Z.pos k * Z.pos p * 10 ^ Z.of_nat q)
        with (Z.pos p * 10 ^ Z.of_nat q * 2 ^ Z.pos k) by lia.
      rewrite Z.div_mul, Z.mod_mul by lia.
      assert (C : (2 * 0 ?= 2 ^ Z.pos k) = Lt)
        by (apply Z.compare_lt_iff; lia).
      rewrite C. reflexivity.
Qed.

Lemma format_int_exact (sp : fspec) (n : Z) :
  Z.abs n < 2 ^ 53 ->
  format (PyInt n) sp
  = Ok (sign_str sp (n <? 0)
        ++ digits_body sp (Z.abs n * 10 ^ Z.of_nat (precision sp))).
Proof.
  intros Hn. unfold format, float_of_int, Z2F, binary_normalize.
  destruct n as [| p | p].
  - reflexivity.
  - destruct (binary_round_small false p Hn) as (m & e & -> & Hs).
    cbn [rbind format_float]. now rewrite Hs.
  - destruct (binary_round_small true p Hn) as (m & e & -> & Hs).
    cbn [rbind format_float]. now rewrite Hs.
Qed.



Import Table.

(** ** Ints of 64 bits convert to a float *)

Lemma shr_1_bound (x : shr_record) :
  0 <= shr_m x -> 0 <= shr_m (shr_1 x) <= shr_m x.
Proof.
  destruct x as [m r s]. cbn [shr_m]. intros Hm.
  destruct m as [| [p | p |] | p]; cbn [shr_1 shr_m]; lia.
Qed.

Lemma iter_shr_1_bound (k : positive) (x : shr_record) :
  0 <= shr_m x -> 0 <= shr_m (iter_pos shr_1 k x) <= shr_m x.
Proof.
  revert x. induction k as [k IH | k IH |]; intros x Hx; cbn [iter_pos].
  - pose proof (shr_1_bound x Hx) as H1.
    pose proof (IH _ (proj1 H1)) as H2.
    pose proof (IH _ (proj1 H2)) as H3. lia.
  - pose proof (IH _ Hx) as H2.
    pose proof (IH _ (proj1 H2)) as H3. lia.
  - now apply shr_1_bound.
Qed.

Lemma shr_bound (x : shr_record) (e n : Z) :
  0 <= shr_m x ->
  0 <= shr_m (fst (shr x e n)) <= shr_m x
  /\ snd (shr x e n) = Z.max e (e + n).
Proof.
  intros Hx. destruct n as [| k | k]; cbn [shr fst snd].
  - split; lia.
  - split; [now apply iter_shr_1_bound | lia].
  - split; lia.
Qed.

Lemma Zdigits2_bound (m k : Z) :
  0 <= m < 2 ^ k -> 0 <= k -> 0 <= Zdigits2 m <= k.
Proof.
  intros Hm Hk. destruct m as [| p | p]; cbn [Zdigits2]; try lia.
  rewrite digits2_size.
  pose proof (Pos.size_le p) as Hs.
  apply Pos2Z.pos_le_pos in Hs. rewrite Pos2Z.inj_pow in Hs.
  change (Z.pos p~0) with (2 * Z.pos p) in Hs.
  assert (Hlt : 2 ^ Z.pos (Pos.size p) < 2 ^ (k + 1)).
  { rewrite Z.pow_add_r, Z.pow_1_r by lia. lia. }
  apply Z.pow_lt_mono_r_iff in Hlt; lia.
Qed.

Lemma round_nearest_even_bound (m : Z) (l : location) :
  m <= round_nearest_even m l <= m + 1.
Proof.
  destruct l as [| []]; cbn [round_nearest_even]; try lia.
  destruct (Z.even m); lia.
Qed.

(** Rounding a mantissa below 2^64 at a small exponent does not overflow. *)
Lemma binary_round_aux_no_overflow (s : bool) (m e : Z) :
  0 <= m < 2 ^ 64 -> -100 <= e <= 100 ->
  forall s', binary_round_aux prec emax s m e loc_Exact <> S754_infinity s'.
Proof.
  intros Hm He s'. unfold binary_round_aux, shr_fexp.
  set (x0 := shr_record_of_loc m loc_Exact).
  assert (Hx0 : shr_m x0 = m) by reflexivity.
  set (n1 := fexp prec emax (Zdigits2 m + e) - e).
  pose proof (Zdigits2_bound m 64 Hm ltac:(lia)) as Hd1.
  destruct (shr_bound x0 e n1 ltac:(lia)) as [Hb1 He1].
  destruct (shr x0 e n1) as [mrs' e'] eqn:E1. cbn [fst snd] in Hb1, He1.
  set (m2 := round_nearest_even (shr_m mrs') (loc_of_shr_record mrs')).
  pose proof (round_nearest_even_bound (shr_m mrs') (loc_of_shr_record mrs'))
    as Hr. fold m2 in Hr.
  set (x2 := shr_record_of_loc m2 loc_Exact).
  assert (Hx2 : shr_m x2 = m2) by reflexivity.
  set (n2 := fexp prec emax (Zdigits2 m2 + e') - e').
  assert (Hm2 : 0 <= m2 < 2 ^ 65).
  { change (2 ^ 65) with (2 * 2 ^ 64). lia. }
  pose proof (Zdigits2_bound m2 65 Hm2 ltac:(lia)) as Hd2.
  destruct (shr_bound x2 e' n2 ltac:(lia)) as [Hb2 He2].
  destruct (shr x2 e' n2) as [mrs'' e''] eqn:E2. cbn [fst snd] in Hb2, He2.
  assert (Hle : e'' <= emax - prec).
  { unfold n1, n2, fexp, emin, prec, emax in *. lia. }
  destruct (shr_m mrs'') as [| q | q]; try discriminate.
  apply Z.leb_le in Hle. rewrite Hle. discriminate.
Qed.

Lemma int64_bounds (n : Z) : int64 n = true -> - 2 ^ 63 <= n < 2 ^ 63.
Proof.
  unfold int64. intros H. apply andb_true_iff in H.
  destruct H as [H1 H2]. apply Z.leb_le in H1. apply Z.ltb_lt in H2. lia.
Qed.

Lemma binary_round_no_overflow (s : bool) (p : positive) :
  Z.pos p < 2 ^ 64 ->
  forall s', binary_round prec emax s p 0 <> S754_infinity s'.
Proof.
  intros Hp s'.
  destruct (Z.ltb_spec (Z.pos p) (2 ^ 53)) as [Hs | Hl].
  - destruct (binary_round_small s p Hs) as (m & e & -> & _). discriminate.
  - unfold binary_round.
    assert (Hd : 54 <= Z.pos (digits2_pos p) <= 64).
    { split.
      - rewrite digits2_size. pose proof (Pos.size_gt p) as Hg.
        apply Pos2Z.pos_lt_pos in Hg. rewrite Pos2Z.inj_pow in Hg.
        assert (H53 : 2 ^ 53 < 2 ^ Z.pos (Pos.size p)) by lia.
        apply Z.pow_lt_mono_r_iff in H53; lia.
      - apply (Zdigits2_bound (Z.pos p) 64); lia. }
    assert (Ef : fexp prec emax (Z.pos (digits2_pos p) + 0)
                 = Z.pos (digits2_pos p) - 53).
    { unfold fexp, emin, prec, emax. lia. }
    rewrite Ef. unfold shl_align.
    destruct (Z.pos (digits2_pos p) - 53 - 0) as [| k | k] eqn:Ek; try lia.
    apply binary_round_aux_no_overflow; lia.
Qed.

(** [float(n)] does not raise on an int of 64 bits. *)
Lemma float_of_int_int64 (n : Z) :
  int64 n = true -> float_of_int n = Ok (Z2F n).
Proof.
  intros H. apply int64_bounds in H.
  unfold float_of_int, Z2F, binary_normalize.
  destruct n as [| p | p]; [reflexivity | |].
  - pose proof (binary_round_no_overflow false p ltac:(lia)) as Hn.
    destruct (binary_round prec emax false p 0); try reflexivity.
    now destruct (Hn s).
  - pose proof (binary_round_no_overflow true p ltac:(lia)) as Hn.
    destruct (binary_round prec emax true p 0); try reflexivity.
    now destruct (Hn s).
Qed.

(** ** The formatted table *)

Lemma format_fits (sp : fspec) (x : pyval) :
  fits x = true -> is_number x = true -> exists s, format x sp = Ok s.
Proof.
  intros Hf Hn. destruct x as [| n | y | s | d]; try discriminate Hn.
  - cbn [fits] in Hf. cbn [format].
    rewrite (float_of_int_int64 n Hf). eexists; reflexivity.
  - eexists; reflexivity.
Qed.

(** The four lambdas return a string on every cell whose int, if it is
    one, fits in 64 bits. *)
Lemma lambda_total (f : pyval -> result string) (x : pyval) :
  In f [fmt_price; fmt_change; fmt_change_pct; fmt_volume] ->
  fits x = true -> exists s, f x = Ok s.
Proof.
  intros Hin Hf.
  destruct (is_number x) eqn:En.
  - destruct Hin as [<- | [<- | [<- | [<- | []]]]];
      unfold fmt_price, fmt_change, fmt_change_pct, fmt_volume; rewrite En.
    + destruct (format_fits f2 x Hf En) as [s ->]. eexists; reflexivity.
    + destruct (format_fits plus_f2 x Hf En) as [s ->]. eexists; reflexivity.
    + destruct (format_fits plus_f2 x Hf En) as [s ->]. eexists; reflexivity.
    + exact (format_fits comma_f0 x Hf En).
  - destruct Hin as [<- | [<- | [<- | [<- | []]]]];
      unfold fmt_price, fmt_change, fmt_change_pct, fmt_volume; rewrite En;
      eexists; reflexivity.
Qed.

Lemma shown_fits (f : pyval -> result string) (x : pyval) :
  fits x = true -> fits (shown f x) = true.
Proof. intros H. unfold shown. now destruct (f x). Qed.

Lemma apply_shown (f : pyval -> result string) (cells : list pyval) :
  Forall (fun x => exists s, f x = Ok s) cells ->
  apply f cells = Ok (map (shown f) cells).
Proof.
  induction 1 as [| x r [s Hs] _ IH]; [reflexivity |].
  cbn [apply map]. unfold shown at 1. rewrite Hs, IH. reflexivity.
Qed.

Lemma format_column_absent (f : pyval -> result string) (col : string)
  (df : frame) :
  ~ In col (map fst df) ->
  map (fun c => if String.eqb (fst c) col
                then (fst c, map (shown f) (snd c)) else c) df = df.
Proof.
  induction df as [| [name cells] rest IH]; intros Hn; [reflexivity |].
  cbn [map fst snd] in *.
  destruct (String.eqb_spec name col) as [-> | Hne].
  - exfalso. apply Hn. now left.
  - rewrite IH; [reflexivity |]. intros H. apply Hn. now right.
Qed.

(** Formatting a column replaces its cells by what the lambda shows and
    leaves the other columns as they are. *)
Lemma format_column_shown (f : pyval -> result string) (col : string)
  (df : frame) :
  NoDup (map fst df) ->
  (forall cells, In (col, cells) df ->
     Forall (fun x => exists s, f x = Ok s) cells) ->
  format_column f col df
  = Ok (map (fun c => if String.eqb (fst c) col
                      then (fst c, map (shown f) (snd c)) else c) df).
Proof.
  induction df as [| [name cells] rest IH]; intros Hnd Hok; [reflexivity |].
  cbn [map fst snd] in *. inversion Hnd as [| ? ? Hnot Hnd']; subst.
  cbn [format_column].
  destruct (String.eqb_spec name col) as [-> | Hne].
  - rewrite (apply_shown f cells) by (apply Hok; now left).
    cbn [rbind]. now rewrite format_column_absent.
  - rewrite IH; [reflexivity | exact Hnd' |].
    intros cs Hin. apply Hok. now right.
Qed.

Lemma format_column_names (f : pyval -> result string) (col : string)
  (df : frame) :
  map fst (map (fun c => if String.eqb (fst c) col
                         then (fst c, map (shown f) (snd c)) else c) df)
  = map fst df.
Proof.
  rewrite map_map. apply map_ext. intros [name cells]. cbn [fst snd].
  now destruct (String.eqb name col).
Qed.

Lemma format_column_fits (f : pyval -> result string) (col : string)
  (df : frame) :
  Forall (fun c => Forall (fun x => fits x = true) (snd c)) df ->
  Forall (fun c => Forall (fun x => fits x = true) (snd c))
    (map (fun c => if String.eqb (fst c) col
                   then (fst c, map (shown f) (snd c)) else c) df).
Proof.
  intros H. apply Forall_map. revert H. apply Forall_impl.
  intros [name cells] Hc. cbn [fst snd] in *.
  destruct (String.eqb name col); [| exact Hc]. cbn [snd].
  apply Forall_map. revert Hc. apply Forall_impl. intros x.
  apply shown_fits.
Qed.

Lemma format_column_step (f : pyval -> result string) (col : string)
  (df : frame) :
  In f [fmt_price; fmt_change; fmt_change_pct; fmt_volume] ->
  NoDup (map fst df) ->
  Forall (fun c => Forall (fun x => fits x = true) (snd c)) df ->
  format_column f col df
  = Ok (map (fun c => if String.eqb (fst c) col
                      then (fst c, map (shown f) (snd c)) else c) df).
Proof.
  intros Hf Hnd Hfit. apply format_column_shown; [exact Hnd |].
  intros cells Hin. rewrite Forall_forall in Hfit.
  specialize (Hfit _ Hin). cbn [snd] in Hfit.
  revert Hfit. apply Forall_impl. intros x. now apply lambda_total.
Qed.

Lemma displayed_shown (col : string) (f : pyval -> result string)
  (cells : list pyval) :
  formatter_of col = Some f ->
  In f [fmt_price; fmt_change; fmt_change_pct; fmt_volume] ->
  Forall (fun x => fits x = true) cells ->
  Forall2 (displayed col) cells (map (shown f) cells).
Proof.
  intros Ef Hf. induction 1 as [| x r Hx _ IH]; cbn [map]; constructor.
  - unfold displayed, format_cell, shown. rewrite Ef.
    destruct (lambda_total f x Hf Hx) as [s ->]. reflexivity.
  - exact IH.
Qed.

Lemma displayed_same (col : string) (cells : list pyval) :
  formatter_of col = None -> Forall2 (displayed col) cells cells.
Proof.
  intros Ef. induction cells as [| x r IH]; constructor; [| exact IH].
  unfold displayed, format_cell. now rewrite Ef.
Qed.

(** The table of [main] after the six columns are formatted: the same
    columns, each cell displayed by the lambda of its column. *)
Lemma format_dataframe_displayed (df : frame) :
  NoDup (map fst df) ->
  Forall (fun c => Forall (fun x => fits x = true) (snd c)) df ->
  exists df',
    format_dataframe df = Ok df'
    /\ Forall2 (fun c c' =>
                  fst c' = fst c
                  /\ Forall2 (displayed (fst c)) (snd c) (snd c')) df df'.
Proof.
  intros Hnd Hfit. unfold format_dataframe.
  rewrite (format_column_step fmt_price "Price" df)
    by (cbn [In]; tauto || assumption).
  cbn [rbind]. set (d1 := map _ df).
  assert (N1 : NoDup (map fst d1))
    by (unfold d1; now rewrite format_column_names).
  assert (F1 := format_column_fits fmt_price "Price" df Hfit). fold d1 in F1.
  rewrite (format_column_step fmt_price "Regular Market Price" d1)
    by (cbn [In]; tauto || assumption).
  cbn [rbind]. set (d2 := map _ d1).
  assert (N2 : NoDup (map fst d2))
    by (unfold d2; now rewrite format_column_names).
  assert (F2 := format_column_fits fmt_price "Regular Market Price" d1 F1).
  fold d2 in F2.
  rewrite (format_column_step fmt_price "Previous Close" d2)
    by (cbn [In]; tauto || assumption).
  cbn [rbind]. set (d3 := map _ d2).
  assert (N3 : NoDup (map fst d3))
    by (unfold d3; now rewrite format_column_names).
  assert (F3 := format_column_fits fmt_price "Previous Close" d2 F2).
  fold d3 in F3.
  rewrite (format_column_step fmt_change "Change" d3)
    by (cbn [In]; tauto || assumption).
  cbn [rbind]. set (d4 := map _ d3).
  assert (N4 : NoDup (map fst d4))
    by (unfold d4; now rewrite format_column_names).
  assert (F4 := format_column_fits fmt_change "Change" d3 F3).
  fold d4 in F4.
  rewrite (format_column_step fmt_change_pct "Change%" d4)
    by (cbn [In]; tauto || assumption).
  cbn [rbind]. set (d5 := map _ d4).
  assert (N5 : NoDup (map fst d5))
    by (unfold d5; now rewrite format_column_names).
  assert (F5 := format_column_fits fmt_change_pct "Change%" d4 F4).
  fold d5 in F5.
  rewrite (format_column_step fmt_volume "Volume" d5)
    by (cbn [In]; tauto || assumption).
  eexists. split; [reflexivity |].
  unfold d5, d4, d3, d2, d1. rewrite !map_map.
  clear -Hfit. induction Hfit as [| [name cells] rest Hc _ IH];
    cbn [map]; constructor; [| exact IH].
  cbn [fst snd] in *.
  assert (L : forall f, In f [fmt_price; fmt_change; fmt_change_pct; fmt_volume]
              -> Forall (fun x => fits x = true) (map (shown f) cells)).
  { intros f _. apply Forall_map. revert Hc. apply Forall_impl.
    intros x. apply shown_fits. }
  destruct (String.eqb_spec name "Price") as [-> | E1].
  { cbn. split; [reflexivity |].
    apply (displayed_shown "Price" fmt_price);
      [reflexivity | cbn [In]; tauto | exact Hc]. }
  cbn [fst snd].
  destruct (String.eqb_spec name "Regular Market Price") as [-> | E2].
  { cbn. split; [reflexivity |].
    apply (displayed_shown "Regular Market Price" fmt_price);
      [reflexivity | cbn [In]; tauto | exact Hc]. }
  cbn [fst snd].
  destruct (String.eqb_spec name "Previous Close") as [-> | E3].
  { cbn. split; [reflexivity |].
    apply (displayed_shown "Previous Close" fmt_price);
      [reflexivity | cbn [In]; tauto | exact Hc]. }
  cbn [fst snd].
  destruct (String.eqb_spec name "Change") as [-> | E4].
  { cbn. split; [reflexivity |].
    apply (displayed_shown "Change" fmt_change);
      [reflexivity | cbn [In]; tauto | exact Hc]. }
  cbn [fst snd].
  destruct (String.eqb_spec name "Change%") as [-> | E5].
  { cbn. split; [reflexivity |].
    apply (displayed_shown "Change%" fmt_change_pct);
      [reflexivity | cbn [In]; tauto | exact Hc]. }
  cbn [fst snd].
  destruct (String.eqb_spec name "Volume") as [-> | E6].
  { cbn. split; [reflexivity |].
    apply (displayed_shown "Volume" fmt_volume);
      [reflexivity | cbn [In]; tauto | exact Hc]. }
  cbn [fst snd]. split; [reflexivity |].
  apply displayed_same. unfold formatter_of. cbn [existsb].
  apply String.eqb_neq in E1, E2, E3, E4, E5, E6.
  now rewrite E1, E2, E3, E4, E5, E6.
Qed.

(** *** The table of a list of records *)

Lemma first_seen_spec (l seen : list string) :
  NoDup (first_seen seen l)
  /\ (forall x, In x (first_seen seen l) -> In x l /\ ~ In x seen).
Proof.
  revert seen. induction l as [| x r IH]; intros seen; cbn [first_seen].
  - split; [constructor | intros x []].
  - destruct (existsb (String.eqb x) seen) eqn:E.
    + destruct (IH seen) as [Hn Hi]. split; [exact Hn |].
      intros y Hy. destruct (Hi y Hy). split; [now right | assumption].
    + destruct (IH (x :: seen)) as [Hn Hi]. split.
      * constructor; [| exact Hn]. intros Hx. destruct (Hi x Hx) as [_ Hs].
        apply Hs. now left.
      * intros y [<- | Hy].
        -- split; [now left |]. intros Hin.
           assert (existsb (String.eqb x) seen = true).
           { apply existsb_exists. exists x. split; [exact Hin |].
             apply String.eqb_refl. }
           congruence.
        -- destruct (Hi y Hy) as [H1 H2]. split; [now right |].
           intros Hin. apply H2. now right.
Qed.

Lemma DataFrame_names (rows : list dict) :
  map fst (DataFrame rows) = first_seen [] (flat_map keys rows).
Proof.
  unfold DataFrame. rewrite map_map. cbn [fst]. apply map_id.
Qed.

Lemma lookup_In (d : dict) (k : string) (v : pyval) :
  lookup d k = Some v -> exists k', In (k', v) d.
Proof.
  induction d as [| [k' v'] r IH]; cbn [lookup]; [discriminate |].
  destruct (String.eqb k' k).
  - intros [= ->]. exists k'. now left.
  - intros H. destruct (IH H) as [k1 H1]. exists k1. now right.
Qed.

Lemma infer_objects_fits (cells : list pyval) :
  Forall (fun x => fits x = true) cells ->
  Forall (fun x => fits x = true) (infer_objects cells).
Proof.
  intros H. unfold infer_objects.
  destruct (existsb object_value cells); [exact H |].
  destruct (_ || _); [| exact H].
  apply Forall_map. revert H. apply Forall_impl.
  now intros [| n | y | s | d].
Qed.

Lemma DataFrame_fits (rows : list dict) :
  ints_fit rows = true ->
  Forall (fun c => Forall (fun x => fits x = true) (snd c)) (DataFrame rows).
Proof.
  intros H. unfold DataFrame. apply Forall_map. apply Forall_forall.
  intros col _. cbn [snd]. apply infer_objects_fits. apply Forall_map.
  apply Forall_forall. intros row Hrow. unfold cell_of.
  destruct (lookup row col) as [v |] eqn:E; [| reflexivity].
  destruct (lookup_In _ _ _ E) as [k' Hin].
  unfold ints_fit in H. rewrite forallb_forall in H.
  specialize (H row Hrow). rewrite forallb_forall in H.
  exact (H _ Hin).
Qed.

Lemma infer_objects_length (cells : list pyval) :
  List.length (infer_objects cells) = List.length cells.
Proof.
  unfold infer_objects. destruct (existsb object_value cells); [reflexivity |].
  destruct (_ || _); [apply List.length_map | reflexivity].
Qed.



Lemma fmt_of_int (n : Z) :
  match float_of_int n with
  | Ok x =>
      fmt_price (PyInt n) = fmt_price (PyFloat x)
      /\ fmt_change (PyInt n) = fmt_change (PyFloat x)
      /\ fmt_change_pct (PyInt n) = fmt_change_pct (PyFloat x)
      /\ fmt_volume (PyInt n) = fmt_volume (PyFloat x)
  | Raise e =>
      e = OverflowError
      /\ fmt_price (PyInt n) = Raise OverflowError
      /\ fmt_change (PyInt n) = Raise OverflowError
      /\ fmt_change_pct (PyInt n) = Raise OverflowError
      /\ fmt_volume (PyInt n) = Raise OverflowError
  end.
Proof.
  unfold fmt_price, fmt_change, fmt_change_pct, fmt_volume.
  cbn [is_number format]. unfold float_of_int.
  destruct (Z2F n); repeat split.
Qed.

Lemma fmt_change_int (n : Z) :
  Z.abs n < 2 ^ 53 ->
  fmt_change (PyInt n)
  = Ok ("$" ++ (if n <? 0 then "-" else "+") ++ decimal (Z.abs n) ++ ".00").
Proof.
  intros Hn. unfold fmt_change. cbn [is_number].
  rewrite (format_int_exact _ _ Hn). cbn [rbind].
  unfold digits_body, sign_str.
  cbn [plus_f2 precision comma plus].
  change (10 ^ Z.of_nat 2) with 100.
  rewrite Z.div_mul, Z.mod_mul by lia. reflexivity.
Qed.

(** C2, as the code has it.  Every numeric Change is rendered as the
    dollar sign, then the sign ("+" or "-"), then the magnitude.  A finite
    float shows its magnitude rounded to two decimals: "$+1.23", "$-0.45",
    "$-1.50" for -1.5, "$+0.00" for 0.0 and "$-0.00" for -0.0; NaN is
    rendered "$+nan" and an infinity "$+inf" or "$-inf", without decimals.
    An int is rendered as the float it converts to (every int of 64 bits
    converts, and one below 2^53 in magnitude prints exactly); an int too
    large for a float raises OverflowError. *)
Theorem fmt_change_dollar_then_sign :
  formatter_of "Change" = Some fmt_change
  /\ (forall s m e,
        fmt_change (PyFloat (S754_finite s m e))
        = Ok ("$" ++ (if s then "-" else "+") ++ fixed 2 (scaled 2 m e)))
  /\ (forall s,
        fmt_change (PyFloat (S754_zero s))
        = Ok ("$" ++ (if s then "-" else "+") ++ "0.00"))
  /\ fmt_change (PyFloat S754_nan) = Ok "$+nan"
  /\ (forall s,
        fmt_change (PyFloat (S754_infinity s))
        = Ok ("$" ++ (if s then "-" else "+") ++ "inf"))
  /\ (forall n,
        match float_of_int n with
        | Ok x => fmt_change (PyInt n) = fmt_change (PyFloat x)
        | Raise _ => fmt_change (PyInt n) = Raise OverflowError
        end)
  /\ (forall n, int64 n = true -> float_of_int n = Ok (Z2F n))
  /\ (forall n, Z.abs n < 2 ^ 53 ->
        fmt_change (PyInt n)
        = Ok ("$" ++ (if n <? 0 then "-" else "+") ++ decimal (Z.abs n)
              ++ ".00"))
  /\ (forall m e,
        Z.abs (2 * (numerator m e * 10 ^ 2) - 2 * scaled 2 m e * denominator e)
        <= denominator e)
  /\ fmt_change (PyFloat (dec 123 2)) = Ok "$+1.23"
  /\ fmt_change (PyFloat (dec (-45) 2)) = Ok "$-0.45"
  /\ fmt_change (PyFloat (dec (-15) 1)) = Ok "$-1.50"
  /\ fmt_change (PyInt 2) = Ok "$+2.00"
  /\ fmt_change (PyInt (2 ^ 1024)) = Raise OverflowError.
Proof.
  split; [reflexivity |].
  split; [intros [] m e; reflexivity |].
  split; [intros []; reflexivity |].
  split; [reflexivity |].
  split; [intros []; reflexivity |].
  split.
  { intros n. pose proof (fmt_of_int n) as H.
    destruct (float_of_int n); tauto. }
  split; [exact float_of_int_int64 |].
  split; [exact fmt_change_int |].
  split; [intros m e; apply (scaled_nearest 2) |].
  repeat split; vm_compute; reflexivity.
Qed.



(** ** The dashboard on a sample batch *)

(** AAPL succeeds (price 150, previous close 148) and MSFT fails: two
    results in the order of the list, the second one all null.  The table
    shows the first as "$150.00", "$+2.00", "+1.35%" and "1,234,567", and
    the second, whose nulls stand beside those numbers, as "$nan",
    "$+nan", "+nan%" and "nan". *)
Example sample_batch :
  fst (fetch_all mixed "market" ["AAPL"; "MSFT"] 0%nat)
  = Ok [market_record "AAPL" (PyFloat (Z2F 150)) (PyFloat (Z2F 2))
          (PyFloat (fmul (fdiv (Z2F 2) (Z2F 148)) (Z2F 100)))
          (PyInt 1234567);
        market_record "MSFT" PyNone PyNone PyNone PyNone]
  /\ DataFrame sample_rows
     = [("Ticker", [PyStr "AAPL"; PyStr "MSFT"]);
        ("Price", [PyFloat (Z2F 150); PyFloat S754_nan]);
        ("Change", [PyFloat (Z2F 2); PyFloat S754_nan]);
        ("Change%", [PyFloat (fmul (fdiv (Z2F 2) (Z2F 148)) (Z2F 100));
                     PyFloat S754_nan]);
        ("Volume", [PyFloat (Z2F 1234567); PyFloat S754_nan])]
  /\ format_dataframe (DataFrame sample_rows)
     = Ok [("Ticker", [PyStr "AAPL"; PyStr "MSFT"]);
           ("Price", [PyStr "$150.00"; PyStr "$nan"]);
           ("Change", [PyStr "$+2.00"; PyStr "$+nan"]);
           ("Change%", [PyStr "+1.35%"; PyStr "+nan%"]);
           ("Volume", [PyStr "1,234,567"; PyStr "nan"])].
Proof. repeat split; vm_compute; reflexivity. Qed.

(** ** More on the fetchers *)

(** X1. The pre-market fetch never raises: whatever the provider does, it
    returns a record with the six fields Ticker, Price, Regular Market
    Price, Previous Close, Change and Change%, in this order, whose Ticker
    is the requested symbol; the provider is queried once. *)
Theorem get_premarket_price_six_fields {W : Type} (yf : provider W)
  (sym : string) (w : W) :
  exists p r c ch pct,
    get_premarket_price yf sym w
    = (Ok (premarket_record sym p r c ch pct), snd (info yf sym w)).
Proof.
  destruct (info yf sym w) as [res w'] eqn:Hinfo. cbn [snd].
  destruct res as [[| n | x | s | d] | e].
  5: { rewrite (get_premarket_price_snapshot yf _ _ _ _ Hinfo).
       unfold premarket_outcome.
       destruct (truthy _ && truthy _);
         [destruct (changes _ _) as [[ch pct] | e] |];
         do 5 eexists; reflexivity. }
  all: rewrite (get_premarket_price_failure yf _ _ _ _ Hinfo) by discriminate;
    do 5 eexists; reflexivity.
Qed.

(** X2. The regular-market fetch never raises.  It returns [None] exactly
    when the provider returns an empty history; in every other case,
    failure included, it returns a record with the five fields Ticker,
    Price, Change, Change% and Volume whose Ticker is the symbol. *)
Theorem get_market_price_none_iff_empty {W : Type} (yf : provider W)
  (sym : string) (w : W) :
  (fst (history yf sym w) = Ok []
   /\ get_market_price yf sym w = (Ok PyNone, snd (history yf sym w)))
  \/ (fst (history yf sym w) <> Ok []
      /\ exists p ch pct vol,
           get_market_price yf sym w
           = (Ok (market_record sym p ch pct vol), snd (history yf sym w))).
Proof.
  destruct (history yf sym w) as [r w'] eqn:H. cbn [fst snd].
  destruct r as [hist | e].
  - destruct hist as [| b0 rest].
    + left. split; [reflexivity | now apply get_market_price_empty].
    + right. split; [discriminate |].
      destruct (@exists_last _ (b0 :: rest)) as (l1 & b2 & E1); [discriminate |].
      rewrite E1 in H.
      destruct l1 as [| x l1'].
      * cbn [app] in H. rewrite (get_market_price_one_bar yf _ _ _ _ H).
        do 4 eexists; reflexivity.
      * destruct (@exists_last _ (x :: l1')) as (l0 & b1 & E0); [discriminate |].
        rewrite E0, <- app_assoc in H. cbn [app] in H.
        rewrite (get_market_price_bars yf _ _ _ _ _ _ H).
        do 4 eexists; reflexivity.
  - right. split; [discriminate |].
    rewrite (get_market_price_failure yf _ _ _ _ H).
    do 4 eexists; reflexivity.
Qed.

(** X3. When the history query raises, whatever the exception, the
    regular-market fetch returns the record of the symbol with Price,
    Change, Change% and Volume all null. *)
Theorem get_market_price_raise_all_null {W : Type} (yf : provider W)
  (sym : string) (w w' : W) (e : exn) :
  history yf sym w = (Raise e, w') ->
  get_market_price yf sym w
  = (Ok (PyDict [("Ticker", PyStr sym); ("Price", PyNone); ("Change", PyNone);
                 ("Change%", PyNone); ("Volume", PyNone)]), w').
Proof. intros H. now rewrite (get_market_price_failure yf _ _ _ _ H). Qed.

Lemma get_market_price_raise_all_null_witness :
  get_market_price offline "MSFT" 0%nat
  = (Ok (PyDict [("Ticker", PyStr "MSFT"); ("Price", PyNone); ("Change", PyNone);
                 ("Change%", PyNone); ("Volume", PyNone)]), 1%nat).
Proof.
  exact (get_market_price_raise_all_null offline "MSFT" 0%nat 1%nat
           (OtherError "offline") eq_refl).
Defined.

(** X4. When the snapshot query raises, or returns anything that is not a
    dict ([None], say), the pre-market fetch returns the record of the
    symbol with every other field null. *)
Theorem get_premarket_price_no_snapshot_all_null {W : Type} (yf : provider W)
  (sym : string) (w w' : W) (r : result pyval) :
  info yf sym w = (r, w') ->
  (forall d, r <> Ok (PyDict d)) ->
  get_premarket_price yf sym w
  = (Ok (PyDict [("Ticker", PyStr sym); ("Price", PyNone);
                 ("Regular Market Price", PyNone); ("Previous Close", PyNone);
                 ("Change", PyNone); ("Change%", PyNone)]), w').
Proof.
  intros H Hr. now rewrite (get_premarket_price_failure yf _ _ _ _ H Hr).
Qed.

Lemma get_premarket_price_no_snapshot_all_null_witness :
  get_premarket_price offline "MSFT" 0%nat
  = (Ok (PyDict [("Ticker", PyStr "MSFT"); ("Price", PyNone);
                 ("Regular Market Price", PyNone); ("Previous Close", PyNone);
                 ("Change", PyNone); ("Change%", PyNone)]), 1%nat).
Proof.
  apply (get_premarket_price_no_snapshot_all_null offline "MSFT" 0%nat 1%nat
           (Raise (OtherError "offline")) eq_refl).
  intros d. discriminate.
Defined.

(** X5. On a history of two bars or more, the regular-market fetch reads
    only the last two: Price is the last close, Change is the last close
    minus the one before, Change% is Change divided by the close before,
    times 100, and Volume is that of the last bar. *)
Theorem get_market_price_last_two_bars {W : Type} (yf : provider W)
  (sym : string) (w w' : W) (older : list bar) (b1 b2 : bar) :
  history yf sym w = (Ok (older ++ [b1; b2])%list, w') ->
  get_market_price yf sym w
  = (Ok (PyDict
           [("Ticker", PyStr sym);
            ("Price", PyFloat (Close b2));
            ("Change", PyFloat (fsub (Close b2) (Close b1)));
            ("Change%",
             PyFloat (fmul (fdiv (fsub (Close b2) (Close b1)) (Close b1))
                           (Z2F 100)));
            ("Volume", PyInt (Volume b2))]), w').
Proof.
  intros H. now rewrite (get_market_price_bars yf _ _ _ _ _ _ H).
Qed.

Lemma get_market_price_last_two_bars_witness :
  get_market_price (bars_provider [bar_zero; bar_148; bar_150]) "AAPL" 0%nat
  = (Ok (PyDict
           [("Ticker", PyStr "AAPL");
            ("Price", PyFloat (Z2F 150));
            ("Change", PyFloat (fsub (Z2F 150) (Z2F 148)));
            ("Change%",
             PyFloat (fmul (fdiv (fsub (Z2F 150) (Z2F 148)) (Z2F 148))
                           (Z2F 100)));
            ("Volume", PyInt 1234567)]), 1%nat).
Proof.
  exact (get_market_price_last_two_bars
           (bars_provider [bar_zero; bar_148; bar_150]) "AAPL" 0%nat 1%nat
           [bar_zero] bar_148 bar_150 eq_refl).
Defined.

(** X6. A pre-market price that arrives as text (or as any other truthy
    value that is not a number) makes the subtraction raise inside the
    [try]: the fetch then returns the all-null record, and drops the
    regular price and the previous close of the snapshot as well. *)
Theorem get_premarket_price_text_price {W : Type} (yf : provider W)
  (sym : string) (w w' : W) (d : dict) (s : string) :
  info yf sym w = (Ok (PyDict d), w') ->
  dict_get d "preMarketPrice" = PyStr s ->
  s <> "" ->
  truthy (dict_get d "previousClose") = true ->
  get_premarket_price yf sym w
  = (Ok (premarket_record sym PyNone PyNone PyNone PyNone PyNone), w').
Proof.
  intros H Hp Hs Hc.
  rewrite (get_premarket_price_snapshot yf _ _ _ _ H), Hp.
  unfold premarket_outcome. cbn [truthy]. rewrite Hc.
  replace (String.eqb s "") with false
    by (symmetry; apply String.eqb_neq; exact Hs).
  cbn [negb andb]. unfold changes, sub. cbn [is_number andb rbind].
  reflexivity.
Qed.

Lemma get_premarket_price_text_price_witness :
  get_premarket_price (snapshot_provider text_price_snapshot) "AAPL" 0%nat
  = (Ok (premarket_record "AAPL" PyNone PyNone PyNone PyNone PyNone), 1%nat).
Proof.
  apply (get_premarket_price_text_price (snapshot_provider text_price_snapshot)
           "AAPL" 0%nat 1%nat text_price_snapshot "151.50" eq_refl eq_refl).
  - discriminate.
  - reflexivity.
Defined.

(** X7. A latest close that is NaN is not caught: Price, Change and
    Change% of the record are NaN, whatever the bars before, and since a
    NaN is a float the three are displayed as "$nan", "$+nan" and "+nan%",
    not as "N/A". *)
Theorem get_market_price_nan_close {W : Type} (yf : provider W)
  (sym : string) (w w' : W) (older : list bar) (b : bar) :
  history yf sym w = (Ok (older ++ [b])%list, w') ->
  Close b = S754_nan ->
  get_market_price yf sym w
  = (Ok (market_record sym (PyFloat S754_nan) (PyFloat S754_nan)
           (PyFloat S754_nan) (PyInt (Volume b))), w')
  /\ format_record
       [("Ticker", PyStr sym); ("Price", PyFloat S754_nan);
        ("Change", PyFloat S754_nan); ("Change%", PyFloat S754_nan)]
     = Ok [("Ticker", PyStr sym); ("Price", PyStr "$nan");
           ("Change", PyStr "$+nan"); ("Change%", PyStr "+nan%")].
Proof.
  intros H Hc. split; [| reflexivity].
  destruct older as [| x l'].
  - cbn [app] in H. rewrite (get_market_price_one_bar yf _ _ _ _ H), Hc.
    reflexivity.
  - destruct (@exists_last _ (x :: l')) as (l0 & b1 & E0); [discriminate |].
    rewrite E0, <- app_assoc in H. cbn [app] in H.
    rewrite (get_market_price_bars yf _ _ _ _ _ _ H), Hc. reflexivity.
Qed.

Lemma get_market_price_nan_close_witness :
  get_market_price (bars_provider [bar_148; bar_nan]) "AAPL" 0%nat
  = (Ok (market_record "AAPL" (PyFloat S754_nan) (PyFloat S754_nan)
           (PyFloat S754_nan) (PyInt 0)), 1%nat).
Proof.
  exact (proj1 (get_market_price_nan_close (bars_provider [bar_148; bar_nan])
                  "AAPL" 0%nat 1%nat [bar_148] bar_nan eq_refl eq_refl)).
Defined.

(** ** More on the fetch loop *)

(** The outcome of a fetch depends on the provider's answer alone. *)
Lemma get_market_price_by_answer {W1 W2 : Type} (yf1 : provider W1)
  (yf2 : provider W2) (sym : string) (w1 : W1) (w2 : W2) :
  fst (history yf1 sym w1) = fst (history yf2 sym w2) ->
  fst (get_market_price yf1 sym w1) = fst (get_market_price yf2 sym w2)
  /\ snd (get_market_price yf1 sym w1) = snd (history yf1 sym w1).
Proof.
  intros H. unfold get_market_price, try_except, bind, lift, ret.
  destruct (history yf1 sym w1) as [r1 s1].
  destruct (history yf2 sym w2) as [r2 s2].
  cbn [fst snd] in *. subst r2.
  destruct r1 as [hist | e]; [| split; reflexivity].
  destruct (negb _); [| split; reflexivity].
  destruct (iloc_neg (map Close hist) 1) as [c | e]; [| split; reflexivity].
  destruct (Nat.ltb 1 (List.length hist)).
  - destruct (iloc_neg (map Close hist) 2) as [c2 | e]; [| split; reflexivity].
    destruct (iloc_neg (map Volume hist) 1) as [v | e]; split; reflexivity.
  - destruct (iloc_neg (map Volume hist) 1) as [v | e]; split; reflexivity.
Qed.

Lemma get_premarket_price_by_answer {W1 W2 : Type} (yf1 : provider W1)
  (yf2 : provider W2) (sym : string) (w1 : W1) (w2 : W2) :
  fst (info yf1 sym w1) = fst (info yf2 sym w2) ->
  fst (get_premarket_price yf1 sym w1) = fst (get_premarket_price yf2 sym w2)
  /\ snd (get_premarket_price yf1 sym w1) = snd (info yf1 sym w1).
Proof.
  intros H.
  destruct (info yf1 sym w1) as [r1 s1] eqn:H1.
  destruct (info yf2 sym w2) as [r2 s2] eqn:H2.
  cbn [fst snd] in *. subst r2.
  destruct r1 as [[| k | x | s | d] | e].
  5: { rewrite (get_premarket_price_snapshot yf1 _ _ _ _ H1),
         (get_premarket_price_snapshot yf2 _ _ _ _ H2). split; reflexivity. }
  all: rewrite (get_premarket_price_failure yf1 _ _ _ _ H1) by discriminate;
    rewrite (get_premarket_price_failure yf2 _ _ _ _ H2) by discriminate;
    split; reflexivity.
Qed.

Lemma fetch_one_table (h : string -> result (list bar))
  (i : string -> result pyval) (mt t : string) (n : nat) :
  fetch_one (table_provider h i) mt t n
  = (fst (fetch_one (table_provider h i) mt t 0%nat), S n).
Proof.
  unfold fetch_one. destruct (String.eqb mt "pre_market").
  - destruct (get_premarket_price_by_answer (table_provider h i)
                (table_provider h i) t n 0%nat eq_refl) as [E1 E2].
    rewrite (surjective_pairing (get_premarket_price _ t n)), E1, E2.
    reflexivity.
  - destruct (get_market_price_by_answer (table_provider h i)
                (table_provider h i) t n 0%nat eq_refl) as [E1 E2].
    rewrite (surjective_pairing (get_market_price _ t n)), E1, E2.
    reflexivity.
Qed.

(** X8. With a provider that answers by symbol alone, the loop queries it
    exactly once per ticker, and the result at every position is what the
    fetch of that symbol returns on its own: no failure elsewhere in the
    batch, and no repetition of the symbol, can change it. *)
Theorem fetch_all_by_symbol (h : string -> result (list bar))
  (i : string -> result pyval) (mt : string) (tickers : list string)
  (n : nat) :
  exists results,
    fetch_all (table_provider h i) mt tickers n
    = (Ok results, (n + List.length tickers)%nat)
    /\ Forall2
         (fun t v => fst (fetch_one (table_provider h i) mt t 0%nat) = Ok v)
         tickers results.
Proof.
  rewrite fetch_all_unfold.
  assert (G : forall acc n,
    exists vs,
      for_each tickers (loop_body (table_provider h i) mt) acc n
      = (Ok (acc ++ vs)%list, (n + List.length tickers)%nat)
      /\ Forall2
           (fun t v => fst (fetch_one (table_provider h i) mt t 0%nat) = Ok v)
           tickers vs).
  { induction tickers as [| t r IH]; intros acc k.
    - exists []. split; [| constructor].
      cbn [for_each List.length]. unfold ret.
      now rewrite app_nil_r, Nat.add_0_r.
    - destruct (fetch_one_total (table_provider h i) mt t 0%nat)
        as (v & Hv & _).
      destruct (IH (acc ++ [v])%list (S k)) as (vs & Hloop & Hall).
      exists (v :: vs). split; [| now constructor].
      cbn [for_each]. unfold bind at 1. unfold loop_body at 1.
      unfold bind at 1. rewrite fetch_one_table, Hv. unfold ret at 1.
      rewrite Hloop, <- app_assoc. cbn [List.length app].
      f_equal. lia. }
  destruct (G [] n) as (vs & Hloop & Hall).
  exists vs. split; [exact Hloop | exact Hall].
Qed.

(** ** More on the market clock *)

(** X9. On a weekday the session of every minute of the day is the one of
    exact arithmetic, the float [hour + minute/60] never misplaces a
    minute: pre-market from 04:00 to 09:29, regular hours from 09:30 to
    15:59, after-hours from 16:00 to 19:59, and closed before 04:00 and
    from 20:00 on. *)
Theorem weekday_session_of_minute (t : datetime) :
  valid t -> weekday t < 5 ->
  (240 <= minute_of_day t < 570 -> is_market_open t = (true, PRE_MARKET))
  /\ (570 <= minute_of_day t < 960 -> is_market_open t = (true, REGULAR))
  /\ (960 <= minute_of_day t < 1200 ->
      is_market_open t = (true, AFTER_HOURS))
  /\ (minute_of_day t < 240 \/ 1200 <= minute_of_day t ->
      is_market_open t = (false, OUTSIDE)).
Proof.
  intros (_ & Hh & Hm) Hwd.
  rewrite (is_market_open_weekday t Hwd), (classify_hours_exact t Hh Hm).
  unfold session_by_minutes.
  repeat split; intros H;
    destruct (240 <=? minute_of_day t) eqn:E1;
    destruct (minute_of_day t <? 570) eqn:E2;
    destruct (570 <=? minute_of_day t) eqn:E3;
    destruct (minute_of_day t <? 960) eqn:E4;
    destruct (960 <=? minute_of_day t) eqn:E5;
    destruct (minute_of_day t <? 1200) eqn:E6;
    cbn [andb]; try reflexivity;
    rewrite ?Z.leb_le, ?Z.leb_gt, ?Z.ltb_lt, ?Z.ltb_ge in *; lia.
Qed.

Lemma weekday_session_of_minute_witness :
  is_market_open (at_time 739201 4 0) = (true, PRE_MARKET)
  /\ is_market_open (at_time 739201 19 59) = (true, AFTER_HOURS)
  /\ is_market_open (at_time 739201 3 59) = (false, OUTSIDE).
Proof.
  assert (Hw : weekday (at_time 739201 0 0) < 5) by (vm_compute; reflexivity).
  split; [| split].
  - refine (proj1 (weekday_session_of_minute (at_time 739201 4 0) _ Hw) _);
      unfold valid, minute_of_day; cbn; lia.
  - refine (proj1 (proj2 (proj2
              (weekday_session_of_minute (at_time 739201 19 59) _ Hw))) _);
      unfold valid, minute_of_day; cbn; lia.
  - refine (proj2 (proj2 (proj2
              (weekday_session_of_minute (at_time 739201 3 59) _ Hw))) _);
      unfold valid, minute_of_day; cbn; lia.
Defined.

(** ** More on the ticker list *)

Import Display.

Section MoreBuilderProps.
Variable db : chardb.
Hypothesis Hdb : unicode_db db.

Lemma upper_fixed (l : text) :
  (forall u, In u l -> to_upper db u = [u]) -> upper db l = l.
Proof.
  induction l as [| u r IH]; [reflexivity |]. intros H.
  unfold upper in *. cbn [flat_map].
  rewrite (H u (or_introl eq_refl)), IH; [reflexivity |].
  intros v Hv. apply H. now right.
Qed.

Lemma upper_idem (s : text) : upper db (upper db s) = upper db s.
Proof.
  induction s as [| c r IH]; [reflexivity |].
  change (upper db (c :: r)) with (to_upper db c ++ upper db r)%list.
  rewrite (upper_app db), IH. f_equal.
  apply upper_fixed. intros u Hu. exact (upper_idempotent db Hdb c u Hu).
Qed.

Lemma tokens_upper (t : text) : tokens db (upper db t) = tokens db t.
Proof.
  rewrite <- !(additional_tickers_tokens db Hdb). now rewrite upper_idem.
Qed.

Lemma rstrip_cons (c : N) (r : text) :
  rstrip db (c :: r)
  = match rstrip db r with
    | [] => if isspace db c then [] else [c]
    | r' => c :: r'
    end.
Proof. reflexivity. Qed.

Lemma rstrip_idem (s : text) : rstrip db (rstrip db s) = rstrip db s.
Proof.
  induction s as [| c r IH]; [reflexivity |].
  rewrite rstrip_cons. destruct (rstrip db r) as [| c' r'] eqn:E.
  - destruct (isspace db c) eqn:Ec; [reflexivity |].
    rewrite rstrip_cons. cbn [rstrip]. now rewrite Ec.
  - rewrite rstrip_cons, IH. reflexivity.
Qed.

(** A trimmed tail starts with a character that is not white space. *)
Lemma lstrip_rstrip (s : text) :
  lstrip db (rstrip db (lstrip db s)) = rstrip db (lstrip db s).
Proof.
  induction s as [| c r IH]; [reflexivity |].
  cbn [lstrip]. destruct (isspace db c) eqn:Ec; [exact IH |].
  cbn [rstrip]. destruct (rstrip db r) as [| c' r'].
  - rewrite Ec. cbn [lstrip]. now rewrite Ec.
  - cbn [lstrip]. now rewrite Ec.
Qed.

Lemma strip_idem (s : text) : strip db (strip db s) = strip db s.
Proof. unfold strip. now rewrite lstrip_rstrip, rstrip_idem. Qed.

Lemma has_comma_split (s : text) :
  Forall (fun piece => has_comma piece = false) (split comma_char s).
Proof.
  induction s as [| c r IH]; cbn [split].
  - constructor; [reflexivity | constructor].
  - destruct (N.eqb c comma_char) eqn:Ec.
    + constructor; [reflexivity | exact IH].
    + assert (Ec' : N.eqb comma_char c = false) by now rewrite N.eqb_sym.
      destruct (split comma_char r) as [| piece pieces].
      * constructor; [unfold has_comma; cbn [existsb]; now rewrite Ec' |
                      constructor].
      * inversion IH as [| ? ? Hp Hps]; subst.
        constructor; [| exact Hps].
        unfold has_comma in *. cbn [existsb]. now rewrite Ec', Hp.
Qed.

Lemma has_comma_lstrip (s : text) :
  has_comma s = false -> has_comma (lstrip db s) = false.
Proof.
  induction s as [| c r IH]; [reflexivity |].
  cbn [lstrip]. destruct (isspace db c); [| tauto].
  unfold has_comma in *. cbn [existsb]. intros H.
  apply orb_false_iff in H. now apply IH.
Qed.

Lemma has_comma_rstrip (s : text) :
  has_comma s = false -> has_comma (rstrip db s) = false.
Proof.
  induction s as [| c r IH]; [reflexivity |].
  unfold has_comma in *. cbn [existsb rstrip]. intros H.
  apply orb_false_iff in H. destruct H as [Hc Hr]. specialize (IH Hr).
  destruct (rstrip db r) as [| c' r'].
  - destruct (isspace db c); cbn [existsb]; [reflexivity | now rewrite Hc].
  - cbn [existsb] in *. now rewrite Hc, IH.
Qed.

Lemma has_comma_upper (s : text) :
  has_comma s = false -> has_comma (upper db s) = false.
Proof.
  induction s as [| c r IH]; [reflexivity |].
  unfold has_comma at 1. cbn [existsb]. intros H.
  apply orb_false_iff in H. destruct H as [Hc Hr].
  change (upper db (c :: r)) with (to_upper db c ++ upper db r)%list.
  unfold has_comma. rewrite existsb_app.
  fold (has_comma (to_upper db c)). fold (has_comma (upper db r)).
  rewrite (IH Hr), (to_upper_no_comma db Hdb c); [reflexivity |].
  intros ->. now rewrite N.eqb_refl in Hc.
Qed.

Lemma tokens_clean (t x : text) :
  In x (tokens db t) ->
  upper db x = x /\ strip db x = x /\ has_comma x = false.
Proof.
  unfold tokens. destruct t as [| c0 r0]; [intros [] |].
  rewrite in_map_iff. intros (piece & <- & Hin).
  pose proof (has_comma_split (c0 :: r0)) as Hall.
  rewrite Forall_forall in Hall. specialize (Hall _ Hin).
  split; [apply upper_idem |].
  split; [now rewrite (strip_upper db Hdb), strip_idem |].
  apply has_comma_upper. unfold strip.
  now apply has_comma_rstrip, has_comma_lstrip.
Qed.

Lemma dedup_seen_app (seen l1 l2 : list text) :
  dedup_seen seen (l1 ++ l2)
  = (dedup_seen seen l1 ++ dedup_seen (seen ++ l1) l2)%list.
Proof.
  revert seen. induction l1 as [| x r IH]; intros seen; cbn [app dedup_seen].
  - now rewrite app_nil_r.
  - destruct (existsb (text_eqb x) seen) eqn:E.
    + rewrite IH. f_equal. apply dedup_seen_ext. intros y.
      rewrite !in_app_iff. cbn [In].
      apply existsb_eqb_In in E. split; [tauto |].
      intros [H | [<- | H]]; tauto.
    + cbn [app]. rewrite IH. do 2 f_equal.
      apply dedup_seen_ext. intros y. rewrite !in_app_iff. cbn [In]. tauto.
Qed.

Lemma dedup_seen_fresh (l seen : list text) :
  NoDup l -> (forall x, In x seen -> ~ In x l) -> dedup_seen seen l = l.
Proof.
  intros Hnd. revert seen.
  induction Hnd as [| y r Hy Hr IH]; intros seen Hs; [reflexivity |].
  cbn [dedup_seen].
  destruct (existsb (text_eqb y) seen) eqn:E.
  - apply existsb_eqb_In in E. exfalso. apply (Hs y E). now left.
  - f_equal. apply IH. intros x [<- | Hx]; [exact Hy |].
    intros Hin. apply (Hs x Hx). now right.
Qed.

Lemma build_prefix (defaults : list text) (t : text) :
  NoDup defaults ->
  build db defaults t
  = (defaults ++ dedup_seen defaults (tokens db t))%list.
Proof.
  intros Hnd. rewrite (build_unfold db _ _ Hdb), dedup_seen_app. cbn [app].
  rewrite (dedup_seen_fresh defaults [] Hnd); [reflexivity |].
  intros x [].
Qed.

(** Splitting the displayed line gives the symbols back, each but the
    first behind the space of the separator. *)
Lemma split_no_comma (a : text) :
  has_comma a = false -> split comma_char a = [a].
Proof.
  intros H. rewrite <- (app_nil_r a) at 1.
  rewrite (split_app_no_comma a [] H). cbn [split]. now rewrite app_nil_r.
Qed.

Lemma split_app_comma (a b : text) :
  has_comma a = false ->
  split comma_char (a ++ comma_char :: b)%list = a :: split comma_char b.
Proof.
  intros H. rewrite (split_app_no_comma a (comma_char :: b) H).
  cbn [split]. rewrite N.eqb_refl. cbv iota. now rewrite app_nil_r.
Qed.

Lemma split_join (x : text) (r : list text) :
  Forall (fun y => has_comma y = false) (x :: r) ->
  split comma_char (join (txt ", ") (x :: r)) = x :: map (cons 32%N) r.
Proof.
  revert x. induction r as [| y r' IH]; intros x Hall.
  - cbn [join map]. apply split_no_comma. now inversion Hall.
  - inversion Hall as [| ? ? Hx Hr]; subst.
    change (join (txt ", ") (x :: y :: r'))
      with (x ++ comma_char :: (32%N :: join (txt ", ") (y :: r')))%list.
    rewrite split_app_comma by exact Hx. f_equal.
    assert (E : 32%N :: join (txt ", ") (y :: r')
                = join (txt ", ") ((32%N :: y) :: r')).
    { destruct r'; reflexivity. }
    rewrite E, IH.
    + reflexivity.
    + inversion Hr as [| ? ? Hy Hr']; subst.
      constructor; [exact Hy | exact Hr'].
Qed.

Lemma isspace_space : isspace db 32%N = true.
Proof. rewrite (ascii_space db Hdb 32%N); [reflexivity | lia]. Qed.

Lemma strip_after_space (y : text) : strip db (32%N :: y) = strip db y.
Proof. unfold strip. cbn [lstrip]. now rewrite isspace_space. Qed.

(** A clean list that is shown and typed back is built again as it was. *)
Lemma ticker_line_typed_back (l : list text) :
  NoDup l ->
  (forall y, In y l ->
     upper db y = y /\ strip db y = y /\ has_comma y = false) ->
  l <> [[]] ->
  build db [] (ticker_line l) = l.
Proof.
  intros Hnd Hparts Hne. rewrite (build_unfold db _ _ Hdb). cbn [app].
  destruct l as [| x r]; [reflexivity |].
  assert (Etok : tokens db (ticker_line (x :: r)) = x :: r).
  { unfold tokens, ticker_line.
    destruct (join (txt ", ") (x :: r)) as [| c0 r0] eqn:Ej.
    - exfalso. destruct r as [| y r'].
      + cbn [join] in Ej. subst x. now apply Hne.
      + cbn [join] in Ej. apply app_eq_nil in Ej. destruct Ej as [_ Ej].
        discriminate Ej.
    - rewrite <- Ej, split_join.
      2:{ apply Forall_forall. intros y Hy. now apply Hparts. }
      cbn [map]. f_equal.
      + destruct (Hparts x (or_introl eq_refl)) as (Hu & Hs & _).
        now rewrite Hs, Hu.
      + rewrite map_map.
        rewrite <- (map_id r) at 2. apply map_ext_in. intros y Hy.
        destruct (Hparts y (or_intror Hy)) as (Hu & Hs & _).
        now rewrite strip_after_space, Hs, Hu. }
  rewrite Etok. apply dedup_seen_fresh; [exact Hnd | intros y []].
Qed.

Lemma default_tickers_clean (y : text) :
  In y default_tickers ->
  upper db y = y /\ strip db y = y /\ has_comma y = false.
Proof.
  intros Hy.
  assert (Hall : forallb
            (fun x => is_ascii x && text_eqb (upper latin1 x) x
                      && text_eqb (strip latin1 x) x && negb (has_comma x))
            default_tickers = true) by (vm_compute; reflexivity).
  rewrite forallb_forall in Hall. specialize (Hall y Hy).
  apply andb_true_iff in Hall. destruct Hall as [Hall Hc].
  apply andb_true_iff in Hall. destruct Hall as [Hall Hs].
  apply andb_true_iff in Hall. destruct Hall as [Ha Hu].
  apply text_eqb_eq in Hu, Hs. apply negb_true_iff in Hc.
  split; [now rewrite (upper_ascii db latin1 Hdb latin1_unicode y Ha) |].
  split; [| exact Hc].
  destruct (strip_ascii db latin1 Hdb latin1_unicode y Ha) as [E _].
  now rewrite E.
Qed.

End MoreBuilderProps.

Lemma default_tickers_NoDup : NoDup default_tickers.
Proof.
  replace default_tickers with (dedup_seen [] default_tickers)
    by (vm_compute; reflexivity).
  apply dedup_seen_NoDup.
Qed.

(** X10. The builder does not look at the case of what the user typed:
    the text and its upper-cased form, by Python's full Unicode case
    mapping, give the same list. *)
Theorem build_ignores_case (db : chardb) (defaults : list text) (t : text) :
  unicode_db db ->
  build db defaults (upper db t) = build db defaults t.
Proof.
  intros Hdb. now rewrite !(build_unfold db _ _ Hdb), (tokens_upper db Hdb).
Qed.

Lemma build_ignores_case_witness :
  build latin1 [txt "AAPL"] (upper latin1 [233%N; 44%N; 223%N])
  = build latin1 [txt "AAPL"] [233%N; 44%N; 223%N].
Proof.
  exact (build_ignores_case latin1 [txt "AAPL"] [233%N; 44%N; 223%N]
           latin1_unicode).
Defined.

(** X11. What the user types never removes or moves a default: on
    defaults without duplicates the list is the defaults, as they are,
    followed by the tokens that are new, each once. *)
Theorem build_keeps_defaults_first (db : chardb) (defaults : list text)
  (t : text) :
  unicode_db db -> NoDup defaults ->
  exists added,
    build db defaults t = (defaults ++ added)%list
    /\ NoDup added
    /\ forall x, In x added <-> In x (tokens db t) /\ ~ In x defaults.
Proof.
  intros Hdb Hnd. exists (dedup_seen defaults (tokens db t)).
  split; [now apply build_prefix |].
  split; [apply dedup_seen_NoDup | intros x; apply dedup_seen_In].
Qed.

Lemma build_keeps_defaults_first_witness :
  exists added,
    build latin1 default_tickers (txt "aapl" ++ [160%N; 44%N] ++ txt "sofi")%list
    = (default_tickers ++ added)%list
    /\ NoDup added
    /\ forall x,
         In x added <->
         In x (tokens latin1 (txt "aapl" ++ [160%N; 44%N] ++ txt "sofi")%list)
         /\ ~ In x default_tickers.
Proof.
  exact (build_keeps_defaults_first latin1 default_tickers _
           latin1_unicode default_tickers_NoDup).
Defined.

(** X12. Every symbol of the list that is not one of the defaults is
    clean: it is its own upper case, has no white space at either end
    (Unicode white space), and holds no comma. *)
Theorem build_symbols_clean (db : chardb) (defaults : list text)
  (t x : text) :
  unicode_db db ->
  In x (build db defaults t) ->
  In x defaults
  \/ (upper db x = x /\ strip db x = x /\ has_comma x = false).
Proof.
  intros Hdb. rewrite (build_unfold db _ _ Hdb), dedup_seen_In, in_app_iff.
  intros [[Hd | Ht] _]; [now left | right].
  now apply (tokens_clean db Hdb t).
Qed.

Lemma build_symbols_clean_witness :
  In (txt "SOFI") [txt "NVDA"]
  \/ (upper latin1 (txt "SOFI") = txt "SOFI"
      /\ strip latin1 (txt "SOFI") = txt "SOFI"
      /\ has_comma (txt "SOFI") = false).
Proof.
  apply (build_symbols_clean latin1 [txt "NVDA"]
           ([160%N] ++ txt "sofi ,nvda")%list (txt "SOFI") latin1_unicode).
  vm_compute. tauto.
Defined.

(** X13. The line shown under 'Current Ticker List' holds the whole
    list: whatever the user typed, typing that line into the input, with
    no defaults, builds the same list again. *)
Theorem ticker_line_round_trip (db : chardb) (t : text) :
  unicode_db db ->
  build db [] (ticker_line (build db default_tickers t))
  = build db default_tickers t.
Proof.
  intros Hdb. apply (ticker_line_typed_back db Hdb).
  - rewrite (build_unfold db _ _ Hdb). apply dedup_seen_NoDup.
  - intros y Hy.
    rewrite (build_unfold db _ _ Hdb), dedup_seen_In, in_app_iff in Hy.
    destruct Hy as [[Hd | Ht] _];
      [now apply default_tickers_clean | now apply (tokens_clean db Hdb t)].
  - rewrite (build_prefix db Hdb _ _ default_tickers_NoDup). discriminate.
Qed.

Lemma ticker_line_round_trip_witness :
  build latin1 []
    (ticker_line (build latin1 default_tickers [233%N; 160%N; 44%N; 223%N]))
  = build latin1 default_tickers [233%N; 160%N; 44%N; 223%N].
Proof.
  exact (ticker_line_round_trip latin1 [233%N; 160%N; 44%N; 223%N]
           latin1_unicode).
Defined.

(** ** More on the formatter *)

Lemma fields_checked_2 :
  forallb (field_ok 2) (map Z.of_nat (seq 0 100)) = true.
Proof. vm_compute. reflexivity. Qed.


Lemma field_ok_spec (w : nat) (n : Z) :
  field_ok w n = true ->
  String.length (zfill w (decimal n)) = w
  /\ all_digits (zfill w (decimal n)) = true
  /\ digits_value (zfill w (decimal n)) = n.
Proof.
  unfold field_ok. cbv zeta. intros H.
  apply andb_true_iff in H. destruct H as [H Hv].
  apply andb_true_iff in H. destruct H as [Hl Hd].
  apply Nat.eqb_eq in Hl. apply Z.eqb_eq in Hv. tauto.
Qed.

Lemma field_2 (n : Z) : 0 <= n < 100 -> field_ok 2 n = true.
Proof.
  intros H. pose proof fields_checked_2 as Hall.
  rewrite forallb_forall in Hall. apply Hall.
  apply in_map_iff. exists (Z.to_nat n). split; [lia | apply in_seq; lia].
Qed.


Lemma decimal_not_empty (n : Z) : decimal n <> "".
Proof.
  unfold decimal, NilZero.string_of_uint.
  destruct (N.to_uint (Z.to_N n)); cbn; discriminate.
Qed.

(** The two decimals of a number of hundredths. *)
Lemma fixed_2_shape (n : Z) :
  exists whole frac,
    fixed 2 n = whole ++ "." ++ frac
    /\ whole <> "" /\ all_digits whole = true
    /\ String.length frac = 2%nat /\ all_digits frac = true.
Proof.
  exists (decimal (n / 10 ^ Z.of_nat 2)),
         (zfill 2 (decimal (n mod 10 ^ Z.of_nat 2))).
  split; [reflexivity |].
  split; [apply decimal_not_empty |].
  split; [apply decimal_all_digits |].
  assert (Hr : 0 <= n mod 10 ^ Z.of_nat 2 < 100).
  { change (10 ^ Z.of_nat 2) with 100. apply Z.mod_pos_bound. lia. }
  destruct (field_ok_spec 2 _ (field_2 _ Hr)) as (Hl & Hd & _).
  split; assumption.
Qed.

(** X14. Every finite price, change and change percentage is displayed
    with exactly two decimals: after the dollar sign or the sign come one
    digit or more, a point, and two digits. *)
Theorem two_decimals_always (x : float) :
  is_finite x = true ->
  exists sign whole frac,
    fmt_price (PyFloat x) = Ok ("$" ++ sign ++ whole ++ "." ++ frac)
    /\ fmt_change (PyFloat x)
       = Ok ("$" ++ (if String.eqb sign "" then "+" else sign)
             ++ whole ++ "." ++ frac)
    /\ fmt_change_pct (PyFloat x)
       = Ok ((if String.eqb sign "" then "+" else sign)
             ++ whole ++ "." ++ frac ++ "%")
    /\ (sign = "" \/ sign = "-")
    /\ whole <> "" /\ all_digits whole = true
    /\ String.length frac = 2%nat /\ all_digits frac = true.
Proof.
  intros Hx.
  destruct x as [s | s | | s m e]; try discriminate Hx.
  - exists (if s then "-" else ""), "0", "00".
    destruct s; repeat split; auto; discriminate.
  - destruct (fixed_2_shape (scaled 2 m e)) as (whole & frac & E & Hw).
    exists (if s then "-" else ""), whole, frac.
    split; [| split; [| split; [| split]]].
    + rewrite <- E. destruct s; reflexivity.
    + rewrite <- E. destruct s; reflexivity.
    + rewrite fmt_change_pct_finite, E, !append_assoc.
      destruct s; reflexivity.
    + destruct s; auto.
    + exact Hw.
Qed.

Lemma two_decimals_always_witness :
  exists sign whole frac,
    fmt_price (PyFloat (dec 2675 3)) = Ok ("$" ++ sign ++ whole ++ "." ++ frac)
    /\ fmt_change (PyFloat (dec 2675 3))
       = Ok ("$" ++ (if String.eqb sign "" then "+" else sign)
             ++ whole ++ "." ++ frac)
    /\ fmt_change_pct (PyFloat (dec 2675 3))
       = Ok ((if String.eqb sign "" then "+" else sign)
             ++ whole ++ "." ++ frac ++ "%")
    /\ (sign = "" \/ sign = "-")
    /\ whole <> "" /\ all_digits whole = true
    /\ String.length frac = 2%nat /\ all_digits frac = true.
Proof.
  apply (two_decimals_always (dec 2675 3)). vm_compute. reflexivity.
Defined.

(** X15. Formatting the table of any records whose ints all fit in 64
    bits succeeds.  The table keeps its columns, in the order in which
    the keys first occur in the records, and one cell per record in each
    column; a column without a formatter (the Ticker) keeps its cells,
    and every cell of a formatted column becomes a string. *)
Theorem format_dataframe_keeps_columns (rows : list dict) :
  ints_fit rows = true ->
  exists df',
    format_dataframe (DataFrame rows) = Ok df'
    /\ map fst df' = first_seen [] (flat_map keys rows)
    /\ Forall (fun c' => List.length (snd c') = List.length rows) df'
    /\ Forall2
         (fun c c' =>
            (formatter_of (fst c) = None -> snd c' = snd c)
            /\ (formatter_of (fst c) <> None ->
                Forall (fun y => exists s, y = PyStr s) (snd c')))
         (DataFrame rows) df'.
Proof.
  intros Hfit.
  destruct (format_dataframe_displayed (DataFrame rows)) as (df' & Hf & Hall).
  { rewrite DataFrame_names. apply first_seen_spec. }
  { now apply DataFrame_fits. }
  exists df'. split; [exact Hf |].
  assert (Hlen : Forall (fun c => List.length (snd c) = List.length rows)
                   (DataFrame rows)).
  { unfold DataFrame. apply Forall_map. apply Forall_forall. intros col _.
    cbn [snd]. now rewrite infer_objects_length, List.length_map. }
  rewrite <- DataFrame_names. clear Hf.
  induction Hall as [| c c' df df' [Hn Hc] _ IH].
  - repeat split; constructor.
  - inversion Hlen as [| ? ? Hl Hlen']; subst.
    destruct (IH Hlen') as (IH1 & IH2 & IH3).
    split; [cbn [map]; now rewrite Hn, IH1 |].
    split.
    + constructor; [| exact IH2].
      apply Forall2_length in Hc. now rewrite <- Hc.
    + constructor; [| exact IH3]. split.
      * intros En. clear -Hc En. induction Hc as [| x y l l' Hd _ IHc];
          [reflexivity |].
        unfold displayed, format_cell in Hd. rewrite En in Hd.
        injection Hd as <-. now rewrite IHc.
      * intros En. clear -Hc En. induction Hc as [| x y l l' Hd _ IHc];
          constructor; [| exact IHc].
        unfold displayed, format_cell in Hd.
        destruct (formatter_of (fst c)) as [f |]; [| congruence].
        destruct (f x) as [s | e]; [| discriminate Hd].
        injection Hd as <-. now exists s.
Qed.

Lemma format_dataframe_keeps_columns_witness :
  ints_fit sample_rows = true
  /\ exists df',
       format_dataframe (DataFrame sample_rows) = Ok df'
       /\ map fst df' = ["Ticker"; "Price"; "Change"; "Change%"; "Volume"].
Proof.
  assert (H : ints_fit sample_rows = true) by (vm_compute; reflexivity).
  split; [exact H |].
  destruct (format_dataframe_keeps_columns sample_rows H)
    as (df' & Hf & Hn & _).
  exists df'. split; [exact Hf | exact Hn].
Defined.

(** An int too large for a float makes the formatting of its column
    raise. *)
Example format_dataframe_overflow :
  format_dataframe (DataFrame [[("Ticker", PyStr "X");
                                ("Volume", PyInt (2 ^ 1024))]])
  = Raise OverflowError.
Proof. vm_compute. reflexivity. Qed.

(** ** The file name of the download *)







(** ** Division by a zero close, and the batch in pre-market mode *)

(** X17. A previous close of zero is not guarded against: with a finite
    latest close other than zero, Change is the latest close and Change%
    is an infinity, displayed as "+inf%" or "-inf%"; no error is raised
    and no field is nulled. *)
Theorem get_market_price_zero_previous_close {W : Type} (yf : provider W)
  (sym : string) (w w' : W) (older : list bar) (b1 b2 : bar)
  (s0 s : bool) (m : positive) (e : Z) :
  history yf sym w = (Ok (older ++ [b1; b2])%list, w') ->
  Close b1 = S754_zero s0 ->
  Close b2 = S754_finite s m e ->
  get_market_price yf sym w
  = (Ok (market_record sym (PyFloat (Close b2)) (PyFloat (Close b2))
           (PyFloat (S754_infinity (xorb s s0))) (PyInt (Volume b2))), w')
  /\ fmt_change_pct (PyFloat (S754_infinity (xorb s s0)))
     = Ok (if xorb s s0 then "-inf%" else "+inf%").
Proof.
  intros H H1 H2. split.
  - rewrite (get_market_price_bars yf _ _ _ _ _ _ H), H1, H2.
    destruct s, s0; reflexivity.
  - destruct (xorb s s0); reflexivity.
Qed.

Lemma get_market_price_zero_previous_close_witness :
  get_market_price (bars_provider [bar_zero; bar_150]) "AAPL" 0%nat
  = (Ok (market_record "AAPL" (PyFloat (Z2F 150)) (PyFloat (Z2F 150))
           (PyFloat (S754_infinity false)) (PyInt 1234567)), 1%nat).
Proof.
  exact (proj1 (get_market_price_zero_previous_close
                  (bars_provider [bar_zero; bar_150]) "AAPL" 0%nat 1%nat
                  [] bar_zero bar_150 false false 5277655813324800 (-45)
                  eq_refl eq_refl eq_refl)).
Defined.

Lemma premarket_loop_records {W : Type} (yf : provider W)
  (tickers : list string) (w : W) :
  exists vs w',
    (forall acc,
       for_each tickers (loop_body yf "pre_market") acc w
       = (Ok (acc ++ vs)%list, w'))
    /\ Forall2
         (fun t v => exists p r c ch pct, v = premarket_record t p r c ch pct)
         tickers vs.
Proof.
  revert w. induction tickers as [| t r IH]; intros w.
  - exists [], w. split; [| constructor].
    intros acc. cbn [for_each]. unfold ret. now rewrite app_nil_r.
  - destruct (get_premarket_price_total yf t w) as (v0 & _ & _).
    assert (Hrec : exists p r c ch pct w1,
               fetch_one yf "pre_market" t w
               = (Ok (premarket_record t p r c ch pct), w1)).
    { unfold fetch_one. cbn [String.eqb Ascii.eqb Bool.eqb].
      destruct (info yf t w) as [res w1] eqn:Hinfo.
      destruct res as [[| n | x | s | d] | e].
      5: { rewrite (get_premarket_price_snapshot yf _ _ _ _ Hinfo).
           unfold premarket_outcome.
           destruct (truthy _ && truthy _);
             [destruct (changes _ _) as [[ch pct] | e] |];
             do 6 eexists; reflexivity. }
      all: rewrite (get_premarket_price_failure yf _ _ _ _ Hinfo)
             by discriminate;
        do 6 eexists; reflexivity. }
    destruct Hrec as (p & r0 & c & ch & pct & w1 & E1).
    destruct (IH w1) as (vs & w' & Hloop & Hall).
    exists (premarket_record t p r0 c ch pct :: vs), w'.
    split; [| constructor; [do 5 eexists; reflexivity | exact Hall]].
    intros acc. cbn [for_each]. unfold bind at 1. unfold loop_body at 1.
    unfold bind at 1. rewrite E1. unfold ret at 1.
    rewrite Hloop, <- app_assoc. reflexivity.
Qed.

(** X18. In pre-market mode the batch holds no [None]: whatever the
    provider does, every result is a six-field record, and the records
    carry the requested symbols in the order of the list. *)
Theorem fetch_all_pre_market_records {W : Type} (yf : provider W)
  (tickers : list string) (w : W) :
  exists results,
    fst (fetch_all yf "pre_market" tickers w) = Ok results
    /\ Forall2
         (fun t v => exists p r c ch pct, v = premarket_record t p r c ch pct)
         tickers results
    /\ map (fun v => match v with
                     | PyDict d => dict_get d "Ticker"
                     | _ => PyNone
                     end) results
       = map PyStr tickers.
Proof.
  destruct (premarket_loop_records yf tickers w) as (vs & w' & Hloop & Hall).
  exists vs. rewrite fetch_all_unfold, (Hloop []). cbn [fst app].
  split; [reflexivity |]. split; [exact Hall |].
  clear Hloop.
  induction Hall as [| t v ts vs' (p & r & c & ch & pct & ->) _ IH];
    [reflexivity |].
  cbn [map]. f_equal. exact IH.
Qed.
